(** * audio-trimmer: the silence-removal pipeline of [server.js]

    A shallow embedding of the decision logic of [server.js] (the
    metadata-aware server) and of the legacy server kept next to it:
    the metadata prober [getAudioMetadata], the command builder of
    [removeSilence], the upload handler of [POST /api/trim-silence] and
    the two file-name generators.

    Conventions of the embedding.
    - JavaScript strings are [string]s; only their ASCII letters are
      affected by [toLowerCase], which is all a comparison against the
      ASCII extensions [.mp3], [.mpeg], [.m4a], [.mp4], [.ogg], [.wav]
      can observe.
    - JavaScript numbers are IEEE-754 binary64 numbers. An integer-valued
      number is the integer itself ([Z]); a result of [parseFloat] carries
      the exact rational value of the double nearest to the literal; [NaN]
      and the infinities are explicit constructors. Products, quotients
      and differences are rounded to binary64, to nearest with ties to
      even, by the operations of [SpecFloat].
    - The external tools (ffprobe, ffmpeg) and the clock and random source
      are inputs of the functions that use them.
    - The file system is a finite map from paths to file sizes. *)

From Stdlib Require Import ZArith QArith Qround Ascii String Lia SpecFloat.
From stdpp Require Import base option list gmap strings pretty.

Local Open Scope Z_scope.

(** ** Binary64 numbers *)

Module Double.

Definition prec : Z := 53.
Definition emax : Z := 1024.

(** The double nearest to an integer. *)
Definition of_Z (z : Z) : spec_float := binary_normalize prec emax z 0 false.

(** An integer of any size as an operand of a division. *)
Definition operand (z : Z) : spec_float :=
  match z with
  | Z0 => S754_zero false
  | Zpos m => S754_finite false m 0
  | Zneg m => S754_finite true m 0
  end.

(** The double nearest to the fraction [n / d]. *)
Definition of_ratio (n : Z) (d : positive) : spec_float :=
  SFdiv prec emax (operand n) (operand (Zpos d)).

Definition of_Q (q : Q) : spec_float := of_ratio (Qnum q) (Qden q).

(** The double nearest to [n * 10 ^ e], the value of a decimal literal. *)
Definition of_decimal (n e : Z) : spec_float :=
  if 0 <=? e then of_Z (n * 10 ^ e) else of_ratio n (Z.to_pos (10 ^ (- e))).

(** The exact value of the finite double with mantissa [m] and exponent
    [e], sign apart. *)
Definition magnitude (m : positive) (e : Z) : Q :=
  if 0 <=? e then inject_Z (Zpos m * 2 ^ e) else Zpos m # Z.to_pos (2 ^ (- e)).

Definition value (negative : bool) (m : positive) (e : Z) : Q :=
  if negative then Qopp (magnitude m e) else magnitude m e.

Definition mul : spec_float -> spec_float -> spec_float := SFmul prec emax.
Definition div : spec_float -> spec_float -> spec_float := SFdiv prec emax.
Definition sub : spec_float -> spec_float -> spec_float := SFsub prec emax.

(** A double without the sign bit, or [NaN]. *)
Definition unsigned (x : spec_float) : Prop :=
  match x with
  | S754_nan => True
  | S754_zero negative | S754_infinity negative | S754_finite negative _ _ =>
      negative = false
  end.

End Double.

(** ** JavaScript values and built-ins used by the server *)

Module Js.

(** Results of [parseInt] and [Math.floor]: an integer or [NaN]. *)
Inductive number :=
  | NaN
  | Num (z : Z).

(** Results of [parseFloat]: [FNum q] is the finite double whose exact
    value is [q]. *)
Inductive fnumber :=
  | FNaN
  | FInfinity (negative : bool)
  | FNum (q : Q).

Definition to_fnumber (x : spec_float) : fnumber :=
  match x with
  | S754_nan => FNaN
  | S754_infinity negative => FInfinity negative
  | S754_zero _ => FNum 0
  | S754_finite negative m e => FNum (Qred (Double.value negative m e))
  end.

(** A property of an object returned by ffprobe: absent, a number (the
    exact value of a double) or a string. *)
Inductive value :=
  | Undefined
  | Number (q : Q)
  | Str (s : string).

(** [ToBoolean] on property values. *)
Definition truthy (v : value) : bool :=
  match v with
  | Undefined => false
  | Number q => negb (Qeq_bool q 0)
  | Str s => negb (String.eqb s EmptyString)
  end.

(** [ToBoolean] on a variable holding [null] or a number: [null], [NaN]
    and [0] are falsy. *)
Definition truthy_num (b : option number) : bool :=
  match b with
  | None => false
  | Some NaN => false
  | Some (Num z) => negb (z =? 0)
  end.

Definition is_space (c : ascii) : bool :=
  let n := nat_of_ascii c in
  ((9 <=? n) && (n <=? 13))%nat || (n =? 32)%nat.

Fixpoint trim_start (s : string) : string :=
  match s with
  | String c s' => if is_space c then trim_start s' else s
  | EmptyString => EmptyString
  end.

(** Value of a character as a digit in radix 10 or 16. *)
Definition digit_value (radix : Z) (c : ascii) : option Z :=
  let n := Z.of_nat (nat_of_ascii c) in
  if (48 <=? n) && (n <=? 57) then Some (n - 48)
  else if (radix =? 16) && (97 <=? n) && (n <=? 102) then Some (n - 87)
  else if (radix =? 16) && (65 <=? n) && (n <=? 70) then Some (n - 55)
  else None.

(** Longest prefix of digits: its value, how many digits were read, and
    the rest of the string. *)
Fixpoint read_digits (radix : Z) (s : string) (acc : Z) (count : nat)
  : Z * nat * string :=
  match s with
  | String c s' =>
      match digit_value radix c with
      | Some d => read_digits radix s' (acc * radix + d) (S count)
      | None => (acc, count, s)
      end
  | EmptyString => (acc, count, s)
  end.

Definition read_sign (s : string) : Z * string :=
  match s with
  | String "-" s' => (-1, s')
  | String "+" s' => (1, s')
  | _ => (1, s)
  end.

(** [parseInt(s)] with no radix argument. *)
Definition parseInt_string (s : string) : number :=
  let '(sign, s1) := read_sign (trim_start s) in
  let '(radix, s2) :=
    match s1 with
    | String "0" (String "x" r) => (16, r)
    | String "0" (String "X" r) => (16, r)
    | _ => (10, s1)
    end in
  let '(v, count, _) := read_digits radix s2 0 0 in
  match count with
  | O => NaN
  | _ => Num (sign * v)
  end.

(** [parseInt] on a property value. A number is converted to its decimal
    string first, so its fraction is dropped; this is the result for a
    number whose string is not in exponent notation (magnitude from
    [1e-6] up to [1e21], or zero), as bit rates and file sizes are. *)
Definition parseInt (v : value) : number :=
  match v with
  | Undefined => NaN
  | Number q => Num (Z.quot (Qnum q) (Zpos (Qden q)))
  | Str s => parseInt_string s
  end.

(** Optional exponent part of a decimal literal. *)
Definition read_exponent (s : string) : Z :=
  match s with
  | String c s' =>
      if Ascii.eqb c "e" || Ascii.eqb c "E" then
        let '(sign, s1) := read_sign s' in
        let '(v, count, _) := read_digits 10 s1 0 0 in
        match count with
        | O => 0
        | _ => sign * v
        end
      else 0
  | EmptyString => 0
  end.

(** [parseFloat(s)]: the longest prefix that is a decimal literal, rounded
    to the nearest double; a literal too large for a double gives an
    infinity and one too small gives zero. *)
Definition parseFloat_string (s : string) : fnumber :=
  let '(sign, s1) := read_sign (trim_start s) in
  if String.prefix "Infinity" s1 then FInfinity (sign <? 0)
  else
    let '(ip, icount, s2) := read_digits 10 s1 0 0 in
    let '(fp, fcount, s3) :=
      match s2 with
      | String "." r => read_digits 10 r 0 0
      | _ => (0, O, s2)
      end in
    match icount, fcount with
    | O, O => FNaN
    | _, _ =>
        let digits := ip * 10 ^ Z.of_nat fcount + fp in
        let exponent := read_exponent s3 - Z.of_nat fcount in
        to_fnumber (Double.of_decimal (sign * digits) exponent)
    end.

Definition parseFloat (v : value) : fnumber :=
  match v with
  | Undefined => FNaN
  | Number q => FNum q
  | Str s => parseFloat_string s
  end.

(** [x > 0] on a [parseFloat] result. *)
Definition gt_zero (x : fnumber) : bool :=
  match x with
  | FNaN => false
  | FInfinity negative => negb negative
  | FNum q => negb (Qle_bool q 0)
  end.

(** [Math.floor] of a double. An infinity, which [Math.floor] returns
    unchanged, has no counterpart in [number] and is given as [NaN]; the
    server takes the floor of the quotient of a file size by a duration,
    which for the sizes and durations ffprobe reports is far from the
    largest double. *)
Definition floor (x : spec_float) : number :=
  match x with
  | S754_nan | S754_infinity _ => NaN
  | S754_zero _ => Num 0
  | S754_finite negative m e => Num (Qfloor (Double.value negative m e))
  end.

(** [Math.floor((a * 8) / d)] for a divisor [d] known to be [> 0]. *)
Definition floor_times8_div (a : number) (d : fnumber) : number :=
  match a, d with
  | NaN, _ => NaN
  | _, FNaN => NaN
  | Num _, FInfinity _ => Num 0
  | Num z, FNum q =>
      floor (Double.div (Double.mul (Double.of_Z z) (Double.of_Z 8))
                        (Double.of_Q q))
  end.

(** [String.prototype.toLowerCase], on the ASCII letters. *)
Definition lower_char (c : ascii) : ascii :=
  let n := nat_of_ascii c in
  if ((65 <=? n) && (n <=? 90))%nat then ascii_of_nat (n + 32) else c.

Fixpoint toLowerCase (s : string) : string :=
  match s with
  | String c s' => String (lower_char c) (toLowerCase s')
  | EmptyString => EmptyString
  end.

End Js.

(** ** [path.extname] (POSIX flavour of Node's [path] module) *)

Module Path.

Record scan := Scan {
  startDot : Z;
  startPart : Z;
  end_ : Z;
  matchedSlash : bool;
  preDotState : Z
}.

Definition scan0 : scan := Scan (-1) 0 (-1) true 0.

(** The backward loop of [extname]: [rs] holds the characters at indices
    [i], [i-1], ..., [0]. Reaching a separator after the last component
    leaves the loop. *)
Fixpoint extname_loop (rs : list ascii) (i : Z) (st : scan) : scan :=
  match rs with
  | [] => st
  | code :: rs' =>
      if Ascii.eqb code "/" then
        if negb (matchedSlash st) then
          Scan (startDot st) (i + 1) (end_ st) (matchedSlash st) (preDotState st)
        else extname_loop rs' (i - 1) st
      else
        let st1 :=
          if end_ st =? -1
          then Scan (startDot st) (startPart st) (i + 1) false (preDotState st)
          else st in
        let st2 :=
          if Ascii.eqb code "." then
            if startDot st1 =? -1 then
              Scan i (startPart st1) (end_ st1) (matchedSlash st1) (preDotState st1)
            else if negb (preDotState st1 =? 1) then
              Scan (startDot st1) (startPart st1) (end_ st1) (matchedSlash st1) 1
            else st1
          else if negb (startDot st1 =? -1) then
            Scan (startDot st1) (startPart st1) (end_ st1) (matchedSlash st1) (-1)
          else st1 in
        extname_loop rs' (i - 1) st2
  end.

Definition extname (path : string) : string :=
  let chars := list_ascii_of_string path in
  let st := extname_loop (rev chars) (Z.of_nat (List.length chars) - 1) scan0 in
  if (startDot st =? -1) || (end_ st =? -1) || (preDotState st =? 0)
     || ((preDotState st =? 1) && (startDot st =? end_ st - 1)
         && (startDot st =? startPart st + 1))
  then EmptyString
  else String.substring (Z.to_nat (startDot st))
                        (Z.to_nat (end_ st - startDot st)) path.

(** Invariant of the loop before index [i] is read: the extension, once
    found, starts at a dot to the right of [i] and inside the last
    component. *)
Definition scan_inv (chars : list ascii) (i : Z) (st : scan) : Prop :=
  (end_ st = -1 \/ i + 1 < end_ st)
  /\ (startDot st = -1
      \/ (i < startDot st /\ startDot st < end_ st
          /\ chars !! Z.to_nat (startDot st) = Some "."%char)).

End Path.

(** ** The metadata prober: [getAudioMetadata] *)

Module Probe.
Import Js.

(** One entry of [metadata.streams]. *)
Record Stream := {
  codec_type : value;
  bit_rate : value;
  codec_name : value;
  sample_rate : value;
  channels : value
}.

(** [metadata.format]. *)
Record Format := {
  format_bit_rate : value;
  format_size : value;
  format_duration : value
}.

(** What ffprobe hands to the callback when it does not fail. *)
Record ProbeData := {
  streams : list Stream;
  format : option Format
}.

(** The object the promise resolves to. *)
Record AudioMetadata := {
  bitrate : option number;
  codec : value;
  sampleRate : value;
  channelCount : value
}.

(** The two ways the promise is rejected. *)
Inductive ProbeError :=
  | ProbeFailed (err : string)
  | NoAudioStream.

Definition error_message (e : ProbeError) : string :=
  match e with
  | ProbeFailed err => err
  | NoAudioStream => "No audio stream found"
  end.

Definition is_audio (s : Stream) : bool :=
  match codec_type s with
  | Str t => String.eqb t "audio"
  | _ => false
  end.

(** [let bitrate = audioStream.bit_rate ? parseInt(audioStream.bit_rate) : null] *)
Definition stream_tier (audioStream : Stream) : option number :=
  if truthy (bit_rate audioStream)
  then Some (parseInt (bit_rate audioStream))
  else None.

(** [if (!bitrate && metadata.format && metadata.format.bit_rate) ...] *)
Definition container_tier (fmt : option Format) (bitrate : option number)
  : option number :=
  match fmt with
  | Some f =>
      if negb (truthy_num bitrate) && truthy (format_bit_rate f)
      then Some (parseInt (format_bit_rate f))
      else bitrate
  | None => bitrate
  end.

(** [if (!bitrate && metadata.format && metadata.format.size
        && metadata.format.duration) ...] *)
Definition computed_tier (fmt : option Format) (bitrate : option number)
  : option number :=
  match fmt with
  | Some f =>
      if negb (truthy_num bitrate) && truthy (format_size f)
         && truthy (format_duration f)
      then
        let fileSizeBytes := parseInt (format_size f) in
        let durationSeconds := parseFloat (format_duration f) in
        if gt_zero durationSeconds
        then Some (floor_times8_div fileSizeBytes durationSeconds)
        else bitrate
      else bitrate
  | None => bitrate
  end.

Definition resolve_bitrate (audioStream : Stream) (fmt : option Format)
  : option number :=
  computed_tier fmt (container_tier fmt (stream_tier audioStream)).

(** The callback of [ffmpeg.ffprobe]: [probe] is [inl err] when the tool
    invocation failed and [inr metadata] otherwise. *)
Definition getAudioMetadata (probe : string + ProbeData)
  : ProbeError + AudioMetadata :=
  match probe with
  | inl err => inl (ProbeFailed err)
  | inr metadata =>
      match List.find is_audio (streams metadata) with
      | None => inl NoAudioStream
      | Some audioStream =>
          inr {| bitrate := resolve_bitrate audioStream (format metadata);
                 codec := codec_name audioStream;
                 sampleRate := sample_rate audioStream;
                 channelCount := channels audioStream |}
      end
  end.

(** A bitrate the code treats as known: neither [null], [NaN] nor [0]. *)
Definition known (b : option number) : bool := truthy_num b.

(** A property that is present and parses to a usable bit rate. *)
Definition parseable (v : value) : bool :=
  truthy v && known (Some (parseInt v)).

(** Size and duration are both present and the duration is positive. *)
Definition computable (f : Format) : bool :=
  truthy (format_size f) && truthy (format_duration f)
  && gt_zero (parseFloat (format_duration f)).

(** [floor(fileSizeBytes * 8 / durationSeconds)] as the specification
    words it, in binary64 arithmetic: [b] is the integer with
    [b <= x < b + 1], where [x] is the double nearest to the quotient of
    the double [fileSizeBytes * 8] by the duration. A quotient too large
    for a double is left open. *)
Definition floor_of_quotient (fileSizeBytes : Z) (durationSeconds : Q)
    (b : number) : Prop :=
  match SFdiv 53 1024
          (SFmul 53 1024 (Double.of_Z fileSizeBytes) (Double.of_Z 8))
          (Double.of_Q durationSeconds) with
  | S754_nan => b = NaN
  | S754_infinity _ => True
  | S754_zero _ => b = Num 0
  | S754_finite negative m e =>
      exists k : Z,
        b = Num k
        /\ Qle (inject_Z k) (Double.value negative m e)
        /\ Qlt (Double.value negative m e) (inject_Z (k + 1))
  end.

(** The third tier: the bitrate computed from the size and the duration
    of the container. A size that is not a number gives [NaN]; an
    infinite duration gives [0]. *)
Definition computed_bitrate (f : Format) (b : option number) : Prop :=
  match parseInt (format_size f), parseFloat (format_duration f) with
  | Num fileSizeBytes, FNum durationSeconds =>
      exists n, b = Some n /\ floor_of_quotient fileSizeBytes durationSeconds n
  | Num _, FInfinity _ => b = Some (Num 0)
  | _, _ => b = Some NaN
  end.

(** What [bitrate] holds when no tier gives a usable value: what the last
    bit rate property that was read parsed to, or [null] when none was
    read. *)
Definition last_read (audioStream : Stream) (fmt : option Format)
  : option number :=
  let container :=
    match fmt with
    | Some f => format_bit_rate f
    | None => Undefined
    end in
  if truthy container then Some (parseInt container)
  else if truthy (bit_rate audioStream)
       then Some (parseInt (bit_rate audioStream))
       else None.

(** The priority order of the specification, as a property of the
    resolved bitrate [b]: stream field, else container field, else the
    value computed from size and duration, else a value that is not
    usable. *)
Definition resolved_by_priority (audioStream : Stream) (fmt : option Format)
    (b : option number) : Prop :=
  if parseable (bit_rate audioStream)
  then b = Some (parseInt (bit_rate audioStream))
  else
    match fmt with
    | Some f =>
        if parseable (format_bit_rate f)
        then b = Some (parseInt (format_bit_rate f))
        else if computable f
        then computed_bitrate f b
        else b = last_read audioStream fmt /\ known b = false
    | None => b = last_read audioStream fmt /\ known b = false
    end.

(** The same stream without its [bit_rate] property. *)
Definition without_bit_rate (s : Stream) : Stream :=
  {| codec_type := codec_type s; bit_rate := Undefined;
     codec_name := codec_name s; sample_rate := sample_rate s;
     channels := channels s |}.

End Probe.

(** ** The silence-removal pipeline: [removeSilence] *)

Module Pipeline.
Import Js Probe.

(** The state of a fluent-ffmpeg command object, as far as the server
    sets it. *)
Record Command := {
  input : string;
  audioFilters : list string;
  audioCodec : option string;
  audioBitrate : option Z;
  options : list string
}.

Definition ffmpeg (inputPath : string) : Command :=
  {| input := inputPath; audioFilters := []; audioCodec := None;
     audioBitrate := None; options := [] |}.

Definition set_audioFilters (fs : list string) (c : Command) : Command :=
  {| input := input c; audioFilters := audioFilters c ++ fs;
     audioCodec := audioCodec c; audioBitrate := audioBitrate c;
     options := options c |}.

Definition set_audioCodec (codec : string) (c : Command) : Command :=
  {| input := input c; audioFilters := audioFilters c;
     audioCodec := Some codec; audioBitrate := audioBitrate c;
     options := options c |}.

Definition set_audioBitrate (kbps : Z) (c : Command) : Command :=
  {| input := input c; audioFilters := audioFilters c;
     audioCodec := audioCodec c; audioBitrate := Some kbps;
     options := options c |}.

Definition addOption (name val : string) (c : Command) : Command :=
  {| input := input c; audioFilters := audioFilters c;
     audioCodec := audioCodec c; audioBitrate := audioBitrate c;
     options := options c ++ [name; val] |}.

Definition silenceremove : string :=
  "silenceremove=stop_periods=-1:stop_duration=0.5:stop_threshold=-30dB".

(** [targetBitrate]: [null] unless [metadata && metadata.bitrate]. *)
Definition targetBitrate (metadata : option AudioMetadata) : option Z :=
  match metadata with
  | Some m =>
      match bitrate m with
      | Some (Num b) =>
          if truthy_num (Some (Num b)) then
            let originalKbps := b / 1000 in
            Some (Z.max 32 originalKbps)
          else None
      | _ => None
      end
  | None => None
  end.

(** The command [removeSilence] has built when it calls [.save], and the
    lines it has written to the console by then. *)
Definition removeSilence_command
    (inputPath outputPath : string) (metadata : option AudioMetadata)
  : Command * list string :=
  let outputExt := toLowerCase (Path.extname outputPath) in
  let command := set_audioFilters [silenceremove] (ffmpeg inputPath) in
  let targetBitrate := targetBitrate metadata in
  if String.eqb outputExt ".mp3" || String.eqb outputExt ".mpeg" then
    let command := set_audioCodec "libmp3lame" command in
    match targetBitrate with
    | Some t =>
        (set_audioBitrate t command,
         ["Using original bitrate: " +:+ pretty t +:+ "kbps"])
    | None =>
        (set_audioBitrate 128 command,
         ["Original bitrate not detected, using default 128kbps"])
    end
  else if String.eqb outputExt ".m4a" || String.eqb outputExt ".mp4" then
    let command :=
      match targetBitrate with
      | Some t => set_audioBitrate t (set_audioCodec "aac" command)
      | None => set_audioBitrate 96 (set_audioCodec "aac" command)
      end in
    (addOption "-profile:a" "aac_low" command, [])
  else if String.eqb outputExt ".ogg" then
    let command := set_audioCodec "libvorbis" command in
    match targetBitrate with
    | Some t => (set_audioBitrate (Z.min t 256) command, [])
    | None => (command, [])
    end
  else if String.eqb outputExt ".wav" then
    (set_audioCodec "pcm_s16le" command, [])
  else
    match targetBitrate with
    | Some t => (set_audioBitrate t (set_audioCodec "aac" command), [])
    | None => (set_audioBitrate 96 (set_audioCodec "aac" command), [])
    end.

(** The legacy server's [removeSilence(inputPath, outputPath)]. *)
Definition legacy_removeSilence_command (inputPath outputPath : string)
  : Command :=
  let outputExt := toLowerCase (Path.extname outputPath) in
  let command := set_audioFilters [silenceremove] (ffmpeg inputPath) in
  if String.eqb outputExt ".mp3" || String.eqb outputExt ".mpeg" then
    set_audioBitrate 192 (set_audioCodec "libmp3lame" command)
  else if String.eqb outputExt ".m4a" || String.eqb outputExt ".mp4" then
    set_audioBitrate 192 (set_audioCodec "aac" command)
  else if String.eqb outputExt ".ogg" then
    set_audioCodec "libvorbis" command
  else if String.eqb outputExt ".wav" then
    set_audioCodec "pcm_s16le" command
  else
    set_audioBitrate 192 (set_audioCodec "aac" command).

(** Reading an [-af] filter description [name=k1=v1:k2=v2:...]. *)
Fixpoint split_on (sep : ascii) (s : string) (cur : string) : list string :=
  match s with
  | EmptyString => [cur]
  | String c s' =>
      if Ascii.eqb c sep then cur :: split_on sep s' EmptyString
      else split_on sep s' (cur +:+ String c EmptyString)
  end.

Fixpoint cut_at (sep : ascii) (s : string) (cur : string) : string * string :=
  match s with
  | EmptyString => (cur, EmptyString)
  | String c s' =>
      if Ascii.eqb c sep then (cur, s')
      else cut_at sep s' (cur +:+ String c EmptyString)
  end.

Definition filter_description (f : string) : string * list (string * string) :=
  let '(name, rest) := cut_at "=" f EmptyString in
  (name, List.map (fun kv => cut_at "=" kv EmptyString) (split_on ":" rest EmptyString)).

End Pipeline.

(** ** Artifact names *)

Module Names.

(** [storage.filename]: [now] is [Date.now()] and [rnd] is
    [Math.round(Math.random() * 1E9)]. *)
Definition uploadFilename (now rnd : N) (originalname : string) : string :=
  let uniqueSuffix := pretty now +:+ "-" +:+ pretty rnd in
  uniqueSuffix +:+ Path.extname originalname.

(** The handler's [outputFilename]; [now] is [Date.now()]. *)
Definition outputFilename (now : N) (originalname : string) : string :=
  "trimmed-" +:+ pretty now +:+ Path.extname originalname.

(** Decimal digits, and strings that cannot continue a run of digits. *)
Definition is_digit (c : ascii) : bool :=
  let n := nat_of_ascii c in ((48 <=? n) && (n <=? 57))%nat.

Fixpoint all_digits (s : string) : bool :=
  match s with
  | EmptyString => true
  | String c s' => is_digit c && all_digits s'
  end.

Definition stops_digits (s : string) : bool :=
  match s with
  | EmptyString => true
  | String c _ => negb (is_digit c)
  end.

(** [path.join(dir, name)] for a normalised directory and a plain file
    name. *)
Definition join (dir name : string) : string := dir +:+ "/" +:+ name.

End Names.

(** ** The size statistics of the response *)

Module Stats.

Definition two_digits (d : N) : string :=
  pretty (d / 10)%N +:+ pretty (d mod 10)%N.

(** The digits [toFixed(2)] prints for a magnitude of [h] hundredths. *)
Definition fixed2 (negative : bool) (h : N) : string :=
  (if negative then "-" else EmptyString)
  +:+ pretty (h / 100)%N +:+ "." +:+ two_digits (h mod 100)%N.

(** [x.toFixed(2)]: for a finite [x] the sign, then the integer [n] for
    which [n / 100 - |x|] is closest to zero, the larger one on a tie.
    These are the digits for a magnitude below [1e21], which a percentage
    of file sizes is. *)
Definition toFixed2 (x : spec_float) : string :=
  match x with
  | S754_nan => "NaN"
  | S754_infinity negative => if negative then "-Infinity" else "Infinity"
  | S754_zero _ => fixed2 false 0
  | S754_finite negative m e =>
      let n := Qfloor (Qplus (Qmult (Double.magnitude m e) (inject_Z 100))
                             (1 # 2)) in
      fixed2 negative (Z.to_N n)
  end.

(** [((originalSize - newSize) / originalSize * 100).toFixed(2)]. A zero
    [originalSize] divides by zero: [0 / 0] is [NaN] and a negative
    numerator gives [-Infinity]. *)
Definition reduction (originalSize newSize : Z) : string :=
  toFixed2
    (Double.mul
       (Double.div (Double.sub (Double.of_Z originalSize) (Double.of_Z newSize))
                   (Double.of_Z originalSize))
       (Double.of_Z 100)).

(** The [sizeReduction] field. *)
Definition sizeReduction (originalSize newSize : Z) : string :=
  reduction originalSize newSize +:+ "%".

(** The percentage of the specification,
    [(original - new) / original * 100], in binary64 arithmetic. *)
Definition reductionPercent (originalSizeBytes newSizeBytes : Z) : spec_float :=
  SFmul 53 1024
    (SFdiv 53 1024
       (SFsub 53 1024 (binary_normalize 53 1024 originalSizeBytes 0 false)
                      (binary_normalize 53 1024 newSizeBytes 0 false))
       (binary_normalize 53 1024 originalSizeBytes 0 false))
    (binary_normalize 53 1024 100 0 false).

(** [s] is [x] rounded to two decimals: a minus sign for a negative [x],
    the integer part, a dot and two digits, for the number [h] of
    hundredths nearest to the magnitude of [x] (the larger one when two
    are as near). *)
Definition rounded_to_2_decimals (x : spec_float) (s : string) : Prop :=
  match x with
  | S754_nan => s = "NaN"
  | S754_infinity negative => s = if negative then "-Infinity" else "Infinity"
  | S754_zero _ => s = "0.00"
  | S754_finite negative m e =>
      exists h : N,
        Qle (inject_Z (Z.of_N h))
            (Qplus (Qmult (Double.magnitude m e) (inject_Z 100)) (1 # 2))
        /\ Qlt (Qplus (Qmult (Double.magnitude m e) (inject_Z 100)) (1 # 2))
               (inject_Z (Z.of_N h + 1))
        /\ s = (if negative then "-" else EmptyString)
               +:+ pretty (h / 100)%N +:+ "."
               +:+ pretty (h mod 100 / 10)%N +:+ pretty (h mod 10)%N
  end.

End Stats.

(** ** The upload handler: [POST /api/trim-silence] *)

Module Handler.
Import Js Probe Pipeline Names Stats.

(** [req.file] as multer leaves it. *)
Record File := {
  path : string;
  originalname : string
}.

Inductive Response :=
  | NoFile400
  | Success200 (filename downloadUrl : string)
               (originalSize newSize : Z) (sizeReduction : string)
  | Failure500 (message : string).

Definition status (r : Response) : Z :=
  match r with
  | NoFile400 => 400
  | Success200 _ _ _ _ _ => 200
  | Failure500 _ => 500
  end.

(** What the handler does to the outside, in order. *)
Inductive Event :=
  | ConsoleLog (line : string)
  | ConsoleWarn (line : string)
  | ConsoleError (line : string)
  | Ffprobe (audioPath : string)
  | Save (command : Command) (outputPath : string)
  | Unlink (file : string)
  | Respond (r : Response)
  | SetTimeoutUnlink (file : string) (ms : Z).

(** The file system (path to size), the trace of events, and the response
    together with the file system at the moment it was sent. *)
Record World := {
  files : gmap string Z;
  trace : list Event;
  sent : option (Response * gmap string Z)
}.

(** Computations that read and change the world and may throw an error
    with a message. *)
Definition M (A : Type) : Type := World -> World * (string + A).

#[local] Instance M_ret : MRet M := fun A x w => (w, inr x).
#[local] Instance M_bind : MBind M := fun A B f m w =>
  match m w with
  | (w', inr x) => f x w'
  | (w', inl e) => (w', inl e)
  end.

Definition throw {A} (message : string) : M A := fun w => (w, inl message).

Definition try_catch (body : M unit) (handler : string -> M unit) : M unit :=
  fun w =>
    match body w with
    | (w', inr tt) => (w', inr tt)
    | (w', inl e) => handler e w'
    end.

Definition emit (e : Event) : M unit := fun w =>
  ({| files := files w; trace := trace w ++ [e]; sent := sent w |}, inr tt).

Definition existsSync (p : string) : M bool := fun w =>
  (w, inr (bool_decide (is_Some (files w !! p)))).

Definition statSync_size (p : string) : M Z := fun w =>
  match files w !! p with
  | Some size => (w, inr size)
  | None => (w, inl ("ENOENT: no such file or directory, stat '" +:+ p +:+ "'"))
  end.

Definition unlinkSync (p : string) : M unit := fun w =>
  match files w !! p with
  | Some _ =>
      ({| files := delete p (files w); trace := trace w ++ [Unlink p];
          sent := sent w |}, inr tt)
  | None => (w, inl ("ENOENT: no such file or directory, unlink '" +:+ p +:+ "'"))
  end.

Definition respond (r : Response) : M unit := fun w =>
  ({| files := files w; trace := trace w ++ [Respond r];
      sent := Some (r, files w) |}, inr tt).

Definition when (b : bool) (m : M unit) : M unit :=
  if b then m else mret tt.

(** No response has been sent in a trace. *)
Definition quiet (tr : list Event) : Prop := forall r, Respond r ∉ tr.

Section WithTools.

(** The two external tools. [ffprobe audioPath fs] is what the inspection
    tool reports for [audioPath]; [save command outputPath fs] is the file
    system the transcoder leaves behind and the error it reports, if
    any. *)
Variable ffprobe : string -> gmap string Z -> string + ProbeData.
Variable save : Command -> string -> gmap string Z
                -> gmap string Z * option string.
Variable outputDir : string.

Definition probe (audioPath : string) : M (ProbeError + AudioMetadata) :=
  fun w =>
    ({| files := files w; trace := trace w ++ [Ffprobe audioPath];
        sent := sent w |},
     inr (getAudioMetadata (ffprobe audioPath (files w)))).

(** [removeSilence]: build the command, run it, settle the promise. *)
Definition removeSilence (inputPath outputPath : string)
    (metadata : option AudioMetadata) : M unit :=
  let '(command, lines) := removeSilence_command inputPath outputPath metadata in
  fun w =>
    let '(fs', result) := save command outputPath (files w) in
    let w' := {| files := fs';
                 trace := trace w ++ (ConsoleLog <$> lines)
                            ++ [Save command outputPath];
                 sent := sent w |} in
    match result with
    | None => emit (ConsoleLog "Audio processing finished") w'
    | Some err => (emit (ConsoleError "Error processing audio:");; throw err) w'
    end.

(** The [catch] block of the handler. *)
Definition on_error (inputPath outputPath : string) (error : string) : M unit :=
  emit (ConsoleError "Error processing audio:");;
  inputExists ← existsSync inputPath;
  when inputExists (unlinkSync inputPath);;
  outputExists ← existsSync outputPath;
  when outputExists (unlinkSync outputPath);;
  respond (Failure500 error).

Definition trim_silence (file : option File) (now : N) : M unit :=
  match file with
  | None => respond NoFile400
  | Some f =>
      let inputPath := path f in
      let outputFilename := outputFilename now (originalname f) in
      let outputPath := join outputDir outputFilename in
      try_catch
        (emit (ConsoleLog ("Processing audio file: " +:+ originalname f));;
         probed ← probe inputPath;
         metadata ← match probed with
                    | inr m =>
                        emit (ConsoleLog "Original audio metadata:");;
                        mret (Some m)
                    | inl err =>
                        emit (ConsoleWarn
                                ("Could not read audio metadata, using defaults: "
                                 +:+ error_message err));;
                        mret None
                    end;
         removeSilence inputPath outputPath metadata;;
         created ← existsSync outputPath;
         when (negb created) (throw "Output file was not created");;
         newSize ← statSync_size outputPath;
         originalSize ← statSync_size inputPath;
         let reduction := reduction originalSize newSize in
         respond (Success200 outputFilename
                             ("/api/download/" +:+ outputFilename)
                             originalSize newSize (reduction +:+ "%"));;
         emit (SetTimeoutUnlink inputPath 5000))
        (on_error inputPath outputPath)
  end.

(** *** The handler's run in closed form

    The same run written as one expression over the answers of the two
    tools; [trim_silence] is proved equal to it below. *)

(** [metadata] after the inner [try]/[catch]. *)
Definition metadata_or_null (probed : ProbeError + AudioMetadata)
  : option AudioMetadata :=
  match probed with
  | inr m => Some m
  | inl _ => None
  end.

Definition probe_line (probed : ProbeError + AudioMetadata) : Event :=
  match probed with
  | inr _ => ConsoleLog "Original audio metadata:"
  | inl err =>
      ConsoleWarn ("Could not read audio metadata, using defaults: "
                   +:+ error_message err)
  end.

Definition cleaned (inputPath outputPath : string) (fs : gmap string Z)
  : gmap string Z :=
  delete outputPath (delete inputPath fs).

Definition unlinks (inputPath outputPath : string) (fs : gmap string Z)
  : list Event :=
  (if bool_decide (is_Some (fs !! inputPath)) then [Unlink inputPath] else [])
  ++ (if bool_decide (is_Some (delete inputPath fs !! outputPath))
      then [Unlink outputPath] else []).

(** The world the [catch] block leaves. *)
Definition failed (inputPath outputPath : string) (before : list Event)
    (fs : gmap string Z) (message : string) : World :=
  {| files := cleaned inputPath outputPath fs;
     trace := before ++ [ConsoleError "Error processing audio:"]
                ++ unlinks inputPath outputPath fs
                ++ [Respond (Failure500 message)];
     sent := Some (Failure500 message, cleaned inputPath outputPath fs) |}.

(** The output path of a run, the command handed to the transcoder, and
    the transcoder's answer. *)
Definition run_outputPath (f : File) (now : N) : string :=
  join outputDir (outputFilename now (originalname f)).

Definition run_command (f : File) (now : N) (fs : gmap string Z) : Command :=
  (removeSilence_command (path f) (run_outputPath f now)
     (metadata_or_null (getAudioMetadata (ffprobe (path f) fs)))).1.

Definition run_result (f : File) (now : N) (fs : gmap string Z)
  : gmap string Z * option string :=
  save (run_command f now fs) (run_outputPath f now) fs.

Definition outcome (f : File) (now : N) (fs : gmap string Z) : World :=
  let inputPath := path f in
  let outputFilename := outputFilename now (originalname f) in
  let outputPath := join outputDir outputFilename in
  let probed := getAudioMetadata (ffprobe inputPath fs) in
  let built := removeSilence_command inputPath outputPath
                 (metadata_or_null probed) in
  let ran := save built.1 outputPath fs in
  let started :=
    [ConsoleLog ("Processing audio file: " +:+ originalname f);
     Ffprobe inputPath; probe_line probed]
    ++ (ConsoleLog <$> built.2) ++ [Save built.1 outputPath] in
  match ran.2 with
  | Some err =>
      failed inputPath outputPath
             (started ++ [ConsoleError "Error processing audio:"]) ran.1 err
  | None =>
      let finished := started ++ [ConsoleLog "Audio processing finished"] in
      match ran.1 !! outputPath, ran.1 !! inputPath with
      | None, _ =>
          failed inputPath outputPath finished ran.1
                 "Output file was not created"
      | Some _, None =>
          failed inputPath outputPath finished ran.1
                 ("ENOENT: no such file or directory, stat '"
                  +:+ inputPath +:+ "'")
      | Some newSize, Some originalSize =>
          let r := Success200 outputFilename
                              ("/api/download/" +:+ outputFilename)
                              originalSize newSize
                              (sizeReduction originalSize newSize) in
          {| files := ran.1;
             trace := finished ++ [Respond r; SetTimeoutUnlink inputPath 5000];
             sent := Some (r, ran.1) |}
      end
  end.

End WithTools.

Definition world0 (fs : gmap string Z) : World :=
  {| files := fs; trace := []; sent := None |}.

End Handler.

(** ** The selection tables of the specification *)

Module Table.
Import Js Probe Pipeline.

(** What a command selects: codec, bitrate in kbps, extra output options. *)
Record Selection := {
  sel_codec : option string;
  sel_bitrate : option Z;
  sel_options : list string
}.

Definition selection (c : Command) : Selection :=
  {| sel_codec := audioCodec c; sel_bitrate := audioBitrate c;
     sel_options := options c |}.

Definition mp3 (kbps : Z) : Selection :=
  {| sel_codec := Some "libmp3lame"; sel_bitrate := Some kbps;
     sel_options := [] |}.

(** AAC with the AAC-LC profile requested. *)
Definition aac_lc (kbps : Z) : Selection :=
  {| sel_codec := Some "aac"; sel_bitrate := Some kbps;
     sel_options := ["-profile:a"; "aac_low"] |}.

(** AAC with no profile requested. *)
Definition aac (kbps : Z) : Selection :=
  {| sel_codec := Some "aac"; sel_bitrate := Some kbps; sel_options := [] |}.

Definition vorbis (kbps : option Z) : Selection :=
  {| sel_codec := Some "libvorbis"; sel_bitrate := kbps; sel_options := [] |}.

Definition pcm16 : Selection :=
  {| sel_codec := Some "pcm_s16le"; sel_bitrate := None; sel_options := [] |}.

Definition is_ext (ext : string) (names : list string) : bool :=
  existsb (String.eqb ext) names.

(** The table of section 4.2 as the specification words it; [ext] is the
    lower-cased extension and [targetKbps] the target bitrate if known. *)
Definition table_4_2 (ext : string) (targetKbps : option Z) : Selection :=
  if is_ext ext [".mp3"; ".mpeg"] then mp3 (default 128 targetKbps)
  else if is_ext ext [".m4a"; ".mp4"] then aac_lc (default 96 targetKbps)
  else if is_ext ext [".ogg"] then vorbis ((fun t => Z.min t 256) <$> targetKbps)
  else if is_ext ext [".wav"] then pcm16
  else aac_lc (default 96 targetKbps).

(** The table the code implements: the last row requests no profile. *)
Definition table_code (ext : string) (targetKbps : option Z) : Selection :=
  if is_ext ext [".mp3"; ".mpeg"] then mp3 (default 128 targetKbps)
  else if is_ext ext [".m4a"; ".mp4"] then aac_lc (default 96 targetKbps)
  else if is_ext ext [".ogg"] then vorbis ((fun t => Z.min t 256) <$> targetKbps)
  else if is_ext ext [".wav"] then pcm16
  else aac (default 96 targetKbps).

(** The fixed table of the legacy pipeline. *)
Definition table_legacy (ext : string) : Selection :=
  if is_ext ext [".mp3"; ".mpeg"] then mp3 192
  else if is_ext ext [".m4a"; ".mp4"] then aac 192
  else if is_ext ext [".ogg"] then vorbis None
  else if is_ext ext [".wav"] then pcm16
  else aac 192.

(** The target bitrate of the specification for a known source bitrate. *)
Definition targetKbps (originalBitrateBits : Z) : Z :=
  Z.max 32 (originalBitrateBits / 1000).

End Table.

(** ** Sample inputs *)

Module Samples.
Import Js Probe Pipeline Handler.

Definition sample_metadata (b : option number) : AudioMetadata :=
  {| bitrate := b; codec := Str "mp3"; sampleRate := Number (inject_Z 44100);
     channelCount := Number (inject_Z 2) |}.

Definition sample_stream (b : value) : Stream :=
  {| codec_type := Str "audio"; bit_rate := b; codec_name := Str "mp3";
     sample_rate := Number (inject_Z 44100); channels := Number (inject_Z 2) |}.

Definition sample_format : Format :=
  {| format_bit_rate := Str "N/A"; format_size := Number (inject_Z 1000000);
     format_duration := Str "62.500000" |}.

(** An upload of one million bytes stored under a generated name. *)
Definition sample_file : File :=
  {| path := "/srv/uploads/1700000000000-123456789.mp3";
     originalname := "talk.mp3" |}.

Definition sample_fs : gmap string Z :=
  {[ "/srv/uploads/1700000000000-123456789.mp3" := 1000000 ]}.

(** An inspection tool that finds no audio stream. *)
Definition ffprobe_no_audio (audioPath : string) (fs : gmap string Z)
  : string + ProbeData :=
  inr {| streams := []; format := None |}.

(** An inspection tool that reports a 192000 bit/s stream. *)
Definition ffprobe_192k (audioPath : string) (fs : gmap string Z)
  : string + ProbeData :=
  inr {| streams := [sample_stream (Str "192000")];
         format := Some sample_format |}.

(** The output path of the sample run at time [1700000000001], and the
    file system after a successful run. *)
Definition sample_outputPath : string :=
  "/srv/output/trimmed-1700000000001.mp3".

Definition sample_fs_after : gmap string Z :=
  <[sample_outputPath := 750000]> sample_fs.

(** A transcoder that writes 750000 bytes and succeeds. *)
Definition save_ok (command : Command) (outputPath : string)
    (fs : gmap string Z) : gmap string Z * option string :=
  (<[outputPath := 750000]> fs, None).

(** A transcoder that leaves a partial file behind and reports an error. *)
Definition save_partial (command : Command) (outputPath : string)
    (fs : gmap string Z) : gmap string Z * option string :=
  (<[outputPath := 4096]> fs, Some "ffmpeg exited with code 1").

(** A transcoder that reports an error before it has written anything. *)
Definition save_failing (command : Command) (outputPath : string)
    (fs : gmap string Z) : gmap string Z * option string :=
  (fs, Some "ffmpeg exited with code 1").

(** Two uploads whose handlers read the same [Date.now()],
    [1700000000000], stored under names with different random suffixes. *)
Definition upload_a : File :=
  {| path := "/srv/uploads/1700000000000-111111111.mp3";
     originalname := "a.mp3" |}.

Definition upload_b : File :=
  {| path := "/srv/uploads/1700000000000-222222222.mp3";
     originalname := "b.mp3" |}.

Definition two_uploads : gmap string Z :=
  {[ "/srv/uploads/1700000000000-111111111.mp3" := 1000000;
     "/srv/uploads/1700000000000-222222222.mp3" := 900000 ]}.

(** The file system once the first of the two has been transcoded. *)
Definition first_done : gmap string Z :=
  <["/srv/output/trimmed-1700000000000.mp3" := 750000]> two_uploads.

End Samples.

(** ** Upload validation: the [fileFilter] of the multer configuration *)

Module Upload.

Definition allowedMimes : list string :=
  ["audio/mpeg"; "audio/mp3"; "audio/wav"; "audio/wave";
   "audio/x-wav"; "audio/mp4"; "audio/m4a"; "audio/ogg";
   "audio/webm"; "audio/flac"; "audio/aac"].

(** [Array.prototype.includes] on strings. *)
Definition includes (l : list string) (x : string) : bool :=
  existsb (String.eqb x) l.

(** The callback's answer: [inr true] accepts the file, [inl message] is
    the error handed to multer. *)
Definition fileFilter (mimetype : string) : string + bool :=
  if includes allowedMimes mimetype then inr true
  else inl "Invalid file type. Only audio files are allowed.".

End Upload.

(** ** Silence detection: [detectSilence] *)

Module Detect.
Import Js.

(** The character class [[\d.]]. *)
Definition in_class (c : ascii) : bool :=
  Names.is_digit c || Ascii.eqb c ".".

Fixpoint take_class (s : string) : string :=
  match s with
  | String c s' => if in_class c then String c (take_class s') else EmptyString
  | EmptyString => EmptyString
  end.

Fixpoint skip (n : nat) (s : string) : string :=
  match n, s with
  | S n', String _ s' => skip n' s'
  | _, _ => s
  end.

(** [line.match(/literal([\d.]+)/)]: the group captured at the leftmost
    place where [literal] is followed by at least one character of the
    class, or [None] when the line does not match. *)
Fixpoint capture (literal : string) (line : string) : option string :=
  match line with
  | EmptyString => None
  | String _ rest =>
      if String.prefix literal line then
        match take_class (skip (String.length literal) line) with
        | EmptyString => capture literal rest
        | group => Some group
        end
      else capture literal rest
  end.

Record SilencePeriod := {
  period_start : fnumber;
  period_end : fnumber
}.

(** [silencePeriods] and [currentSilence] (its [start], or [None] for
    [null]). *)
Definition State : Type := list SilencePeriod * option fnumber.

(** The ['stderr'] handler. *)
Definition on_stderr (st : State) (stderrLine : string) : State :=
  let '(silencePeriods, currentSilence) := st in
  let silenceStartMatch := capture "silence_start: " stderrLine in
  let silenceEndMatch := capture "silence_end: " stderrLine in
  let currentSilence :=
    match silenceStartMatch with
    | Some group => Some (parseFloat_string group)
    | None => currentSilence
    end in
  match silenceEndMatch, currentSilence with
  | Some group, Some start =>
      (silencePeriods
         ++ [{| period_start := start;
                period_end := parseFloat_string group |}],
       None)
  | _, _ => (silencePeriods, currentSilence)
  end.

Definition run_stderr (lines : list string) (st : State) : State :=
  fold_left on_stderr lines st.

(** [detectSilence]: ffmpeg writes [lines] to its standard error and then
    ends, or fails with [err]. *)
Definition detectSilence (lines : list string) (err : option string)
  : string + list SilencePeriod :=
  match err with
  | Some e => inl e
  | None => inr (run_stderr lines ([], None)).1
  end.

(** Which of the two patterns a line matches. *)
Definition starts (line : string) : bool :=
  bool_decide (is_Some (capture "silence_start: " line)).

Definition ends (line : string) : bool :=
  bool_decide (is_Some (capture "silence_end: " line)).

(** The period reported for a start line followed by an end line. *)
Definition period_of (startLine endLine : string) : SilencePeriod :=
  {| period_start :=
       parseFloat_string (default EmptyString (capture "silence_start: " startLine));
     period_end :=
       parseFloat_string (default EmptyString (capture "silence_end: " endLine)) |}.

(** A time that is not negative: [NaN], a finite number from zero up, or
    [Infinity]. *)
Definition not_negative (x : fnumber) : Prop :=
  match x with
  | FNaN => True
  | FInfinity negative => negative = false
  | FNum q => Qle 0 q
  end.

(** Periods reported so far plus the one that is open. *)
Definition open_count (st : State) : nat :=
  List.length st.1 + match st.2 with Some _ => 1 | None => 0 end.

Definition period_not_negative (p : SilencePeriod) : Prop :=
  not_negative (period_start p) /\ not_negative (period_end p).

Fixpoint all_class (s : string) : bool :=
  match s with
  | EmptyString => true
  | String c s' => in_class c && all_class s'
  end.

End Detect.

(** ** The download endpoint and the deferred clean-ups *)

Module Download.
Import Names.

Inductive Reply :=
  | NotFound404
  | FileSent (filePath : string)
  | Failed500.

(** What a [setTimeout] callback of the server does when it fires. *)
Inductive Timer :=
  | UnlinkIfPresent (filePath : string) (ms : Z)
  | UnlinkAlways (filePath : string) (ms : Z).

(** [GET /api/download/:filename] for a plain file name; [transfer] is
    the error [res.download] reports to its callback, if any. *)
Definition download (outputDir filename : string)
    (transfer : string -> option string) (fs : gmap string Z)
  : Reply * list Timer :=
  let filePath := join outputDir filename in
  if bool_decide (is_Some (fs !! filePath)) then
    match transfer filePath with
    | Some _ => (Failed500, [])
    | None => (FileSent filePath, [UnlinkIfPresent filePath 1000])
    end
  else (NotFound404, []).

(** Running a timer callback: the new file system, or the error an
    unguarded [unlinkSync] throws. *)
Definition fire (t : Timer) (fs : gmap string Z) : string + gmap string Z :=
  match t with
  | UnlinkIfPresent p _ =>
      if bool_decide (is_Some (fs !! p)) then inr (delete p fs) else inr fs
  | UnlinkAlways p _ =>
      match fs !! p with
      | Some _ => inr (delete p fs)
      | None => inl ("ENOENT: no such file or directory, unlink '" +:+ p +:+ "'")
      end
  end.

End Download.

(** ** Reading a trace *)

Module Observe.
Import Handler Download.

Definition responses (tr : list Event) : list Response :=
  omap (fun e => match e with Respond r => Some r | _ => None end) tr.

(** The external tools started, in order. *)
Definition tool_runs (tr : list Event) : list Event :=
  omap (fun e => match e with
                 | Ffprobe p => Some (Ffprobe p)
                 | Save c o => Some (Save c o)
                 | _ => None
                 end) tr.

Definition unlinked (tr : list Event) : list string :=
  omap (fun e => match e with Unlink p => Some p | _ => None end) tr.

(** The timers the handler has set: its callback is an unguarded
    [fs.unlinkSync]. *)
Definition timers (tr : list Event) : list Timer :=
  omap (fun e => match e with
                 | SetTimeoutUnlink p ms => Some (UnlinkAlways p ms)
                 | _ => None
                 end) tr.

End Observe.

(** ** The legacy server's handler *)

Module Legacy.
Import Pipeline Names Stats Handler.

#[local] Existing Instances M_ret M_bind.

Section WithTools.

Variable save : Command -> string -> gmap string Z
                -> gmap string Z * option string.
Variable outputDir : string.

(** The legacy [removeSilence(inputPath, outputPath)]. *)
Definition removeSilence (inputPath outputPath : string) : M unit :=
  let command := legacy_removeSilence_command inputPath outputPath in
  fun w =>
    let '(fs', result) := save command outputPath (files w) in
    let w' := {| files := fs';
                 trace := trace w ++ [Save command outputPath];
                 sent := sent w |} in
    match result with
    | None => emit (ConsoleLog "Audio processing finished") w'
    | Some err => (emit (ConsoleError "Error processing audio:");; throw err) w'
    end.

Definition trim_silence (file : option File) (now : N) : M unit :=
  match file with
  | None => respond NoFile400
  | Some f =>
      let inputPath := path f in
      let outputFilename := outputFilename now (originalname f) in
      let outputPath := join outputDir outputFilename in
      try_catch
        (emit (ConsoleLog ("Processing audio file: " +:+ originalname f));;
         removeSilence inputPath outputPath;;
         created ← existsSync outputPath;
         when (negb created) (throw "Output file was not created");;
         newSize ← statSync_size outputPath;
         originalSize ← statSync_size inputPath;
         let reduction := reduction originalSize newSize in
         respond (Success200 outputFilename
                             ("/api/download/" +:+ outputFilename)
                             originalSize newSize (reduction +:+ "%"));;
         emit (SetTimeoutUnlink inputPath 5000))
        (on_error inputPath outputPath)
  end.

End WithTools.

End Legacy.

(** ** The shape of extensions and generated names *)

Module PathShape.
Import Path.

(** A character that is neither a separator nor a dot. *)
Definition plain (c : ascii) : bool :=
  negb (Ascii.eqb c "/") && negb (Ascii.eqb c ".").

Fixpoint all_plain (s : string) : bool :=
  match s with
  | EmptyString => true
  | String c s' => plain c && all_plain s'
  end.

(** Empty, or one dot followed by plain characters. *)
Definition ext_shape (e : string) : bool :=
  match e with
  | EmptyString => true
  | String c r => Ascii.eqb c "." && all_plain r
  end.

Fixpoint no_slash (s : string) : bool :=
  match s with
  | EmptyString => true
  | String c s' => negb (Ascii.eqb c "/") && no_slash s'
  end.

Definition plain_at (chars : list ascii) (k : Z) : Prop :=
  forall c, chars !! Z.to_nat k = Some c -> plain c = true.

(** What the loop of [extname] has established before reading index [i]:
    everything between the current start of the extension and its end is
    plain. *)
Definition scan_shape (chars : list ascii) (i : Z) (st : scan) : Prop :=
  (end_ st = -1 -> startDot st = -1 /\ matchedSlash st = true)
  /\ (end_ st <> -1 ->
      matchedSlash st = false
      /\ i + 1 < end_ st <= Z.of_nat (List.length chars)
      /\ (startDot st = -1 ->
          forall k, i < k < end_ st -> plain_at chars k)
      /\ (startDot st <> -1 ->
          i < startDot st < end_ st
          /\ chars !! Z.to_nat (startDot st) = Some "."%char
          /\ forall k, startDot st < k < end_ st -> plain_at chars k)).

(** The state of the loop after a run of plain characters read from index
    [i] downwards. *)
Definition after_plain (i : Z) (st : scan) : scan :=
  Scan (startDot st) (startPart st)
       (if end_ st =? -1 then i + 1 else end_ st)
       (if end_ st =? -1 then false else matchedSlash st)
       (if startDot st =? -1 then preDotState st else -1).

End PathShape.

(** ** More sample inputs *)

Module MoreSamples.
Import Js Probe.

Fixpoint zeros (n : nat) : string :=
  match n with
  | O => EmptyString
  | S n' => String "0" (zeros n')
  end.

Definition video_stream : Stream :=
  {| codec_type := Str "video"; bit_rate := Str "900000";
     codec_name := Str "h264"; sample_rate := Undefined;
     channels := Undefined |}.

(** Lines as ffmpeg's [silencedetect] filter writes them. *)
Definition stderr_sample : list string :=
  ["size=N/A time=00:00:01.02 bitrate=N/A speed= 204x";
   "[silencedetect @ 0x55d0c8] silence_start: 1.5";
   "[silencedetect @ 0x55d0c8] silence_end: 3.25 | silence_duration: 1.75";
   "[silencedetect @ 0x55d0c8] silence_start: 10";
   "size=N/A time=00:00:11.00 bitrate=N/A speed= 210x";
   "[silencedetect @ 0x55d0c8] silence_end: 12.5 | silence_duration: 2.5";
   "[silencedetect @ 0x55d0c8] silence_start: 20.75"].

End MoreSamples.

(** * Properties *)

(** ** Signs of rounded results *)

Module DoubleProps.
Import Double.

Lemma round_aux_unsigned (mx ex : Z) (lx : location) :
  unsigned (binary_round_aux prec emax false mx ex lx).
Proof.
  unfold binary_round_aux.
  destruct (shr_fexp prec emax mx ex lx) as [mrs' e'].
  destruct (shr_fexp prec emax _ e' loc_Exact) as [mrs'' e''].
  destruct (shr_m mrs'') as [|m|m]; [reflexivity| |exact I].
  destruct (Z.leb e'' (emax - prec)); reflexivity.
Qed.

Lemma of_Z_unsigned (z : Z) : 0 <= z -> unsigned (of_Z z).
Proof.
  intros Hz. destruct z as [|m|m]; [reflexivity| |lia].
  unfold of_Z, binary_normalize, binary_round.
  destruct (shl_align m 0 _) as [mz ez]. apply round_aux_unsigned.
Qed.

Lemma mul_unsigned (x y : spec_float) :
  unsigned x -> unsigned y -> unsigned (mul x y).
Proof.
  destruct x as [sx|sx| |sx mx ex], y as [sy|sy| |sy my ey]; simpl;
    intros Hx Hy; subst; try exact I; try reflexivity.
  apply round_aux_unsigned.
Qed.

Lemma div_unsigned (x y : spec_float) :
  unsigned x -> unsigned y -> unsigned (div x y).
Proof.
  destruct x as [sx|sx| |sx mx ex], y as [sy|sy| |sy my ey]; simpl;
    intros Hx Hy; subst; try exact I; try reflexivity.
  unfold div, SFdiv.
  destruct (SFdiv_core_binary prec emax (Z.pos mx) ex (Z.pos my) ey)
    as [[mz ez] lz].
  apply round_aux_unsigned.
Qed.

Lemma operand_unsigned (z : Z) : 0 <= z -> unsigned (operand z).
Proof. destruct z; try reflexivity; lia. Qed.

Lemma of_ratio_unsigned (n : Z) (d : positive) :
  0 <= n -> unsigned (of_ratio n d).
Proof.
  intros Hn. apply div_unsigned; [apply operand_unsigned; exact Hn|reflexivity].
Qed.

Lemma of_Q_unsigned (q : Q) : Qle 0 q -> unsigned (of_Q q).
Proof.
  intros Hq. apply of_ratio_unsigned. unfold Qle in Hq; simpl in Hq. lia.
Qed.

Lemma of_decimal_unsigned (n e : Z) : 0 <= n -> unsigned (of_decimal n e).
Proof.
  intros Hn. unfold of_decimal. destruct (0 <=? e) eqn:He.
  - apply of_Z_unsigned. apply Z.mul_nonneg_nonneg; [exact Hn|].
    apply Z.pow_nonneg. lia.
  - apply of_ratio_unsigned. exact Hn.
Qed.

Lemma magnitude_not_negative (m : positive) (e : Z) : Qle 0 (magnitude m e).
Proof.
  unfold magnitude. destruct (0 <=? e) eqn:He.
  - unfold Qle; simpl. pose proof (Z.pow_nonneg 2 e). lia.
  - unfold Qle; simpl. lia.
Qed.

(** Reading back the doubles of the sample inputs. *)
Example nearest_double_of_decimal :
  Js.to_fnumber (of_decimal 15 (-1)) = Js.FNum (3 # 2)
  /\ Js.to_fnumber (of_decimal 107 (-2))
     = Js.FNum (4818851601286431 # 4503599627370496).
Proof. split; vm_compute; reflexivity. Qed.

(** [1e308] is a double, [1e309] is too large for one. *)
Example literal_overflow :
  (exists q, Js.to_fnumber (of_decimal (10 ^ 308) 0) = Js.FNum q)
  /\ Js.to_fnumber (of_decimal (10 ^ 309) 0) = Js.FInfinity false.
Proof. split; [eexists|]; vm_compute; reflexivity. Qed.

End DoubleProps.

(** ** [path.extname] on sample paths *)

Module PathExamples.
Import Path.

Example extname_upper : extname "/srv/output/trimmed-1700000000000.MP3" = ".MP3".
Proof. reflexivity. Qed.

Example extname_dotfile : extname "/srv/output/.bashrc" = EmptyString.
Proof. reflexivity. Qed.

Example extname_last_dot : extname "a.tar.gz" = ".gz".
Proof. reflexivity. Qed.

Example extname_last_component : extname "a.b/trimmed-17" = EmptyString.
Proof. reflexivity. Qed.

End PathExamples.

(** ** Codec and bitrate selection *)

Module SelectionProps.
Import Js Probe Pipeline Table Samples.

Ltac split_ext e :=
  destruct (String.eqb e ".mp3"), (String.eqb e ".mpeg"),
           (String.eqb e ".m4a"), (String.eqb e ".mp4"),
           (String.eqb e ".ogg"), (String.eqb e ".wav").

Lemma selection_table_code inputPath outputPath metadata :
  selection (removeSilence_command inputPath outputPath metadata).1
  = table_code (toLowerCase (Path.extname outputPath)) (targetBitrate metadata).
Proof.
  unfold removeSilence_command, table_code, is_ext, existsb.
  generalize (toLowerCase (Path.extname outputPath)) as e.
  intros e. destruct (targetBitrate metadata) as [t|];
    split_ext e; reflexivity.
Qed.

(** The fallback branch leaves the AAC profile to the encoder: unlike the
    [.m4a]/[.mp4] branch it adds no [-profile:a] option. *)
Example other_extension_passes_no_option :
  selection (removeSilence_command "/srv/uploads/1-2.flac"
                                   "/srv/output/trimmed-1.flac" None).1
  = aac 96
  /\ selection (removeSilence_command "/srv/uploads/1-2.m4a"
                                      "/srv/output/trimmed-1.m4a" None).1
     = aac_lc 96.
Proof. split; reflexivity. Qed.

(** C1: for every input path, output path and metadata, the codec and the
    bitrate of the command built by [removeSilence] are those of the table
    of section 4.2 looked up at the lower-cased extension of the output
    path: [libmp3lame] at the target bitrate, else 128 kbps, for
    [.mp3]/[.mpeg]; [aac] at the target, else 96 kbps, for [.m4a]/[.mp4];
    [libvorbis] at the smaller of the target and 256 kbps, else with no
    bitrate, for [.ogg]; [pcm_s16le] with no bitrate for [.wav]; [aac] at
    the target, else 96 kbps, for any other extension. On the four named
    rows the output options are the table's as well ([-profile:a aac_low]
    for [.m4a]/[.mp4]); on any other extension no option is passed and the
    profile is the encoder's default. *)
Theorem C1_selection_follows_table :
  forall inputPath outputPath metadata,
    let ext := toLowerCase (Path.extname outputPath) in
    let target := targetBitrate metadata in
    let sel := selection (removeSilence_command inputPath outputPath metadata).1 in
    sel_codec sel = sel_codec (table_4_2 ext target)
    /\ sel_bitrate sel = sel_bitrate (table_4_2 ext target)
    /\ (if is_ext ext [".mp3"; ".mpeg"; ".m4a"; ".mp4"; ".ogg"; ".wav"]
        then sel = table_4_2 ext target
        else sel = aac (default 96 target))
    /\ sel = table_code ext target.
Proof.
  intros inputPath outputPath metadata ext target sel.
  assert (Hsel : sel = table_code ext target) by apply selection_table_code.
  rewrite Hsel. unfold table_code, table_4_2, is_ext, existsb.
  split_ext ext; repeat split; reflexivity.
Qed.

(** Extensions that differ only in letter case select the same
    configuration. *)
Example selection_ignores_case :
  selection (removeSilence_command "in" "/srv/output/trimmed-1.MP3" None).1
  = selection (removeSilence_command "in" "/srv/output/trimmed-1.mp3" None).1.
Proof. reflexivity. Qed.

Lemma targetBitrate_known (m : AudioMetadata) (b : Z) :
  bitrate m = Some (Num b) -> b <> 0 ->
  targetBitrate (Some m) = Some (targetKbps b).
Proof.
  intros Hb Hnz. unfold targetBitrate, targetKbps. rewrite Hb. simpl.
  destruct (Z.eqb_spec b 0) as [->|_]; [contradiction|reflexivity].
Qed.

Lemma targetBitrate_unknown (m : AudioMetadata) :
  known (bitrate m) = false -> targetBitrate (Some m) = None.
Proof.
  unfold known, targetBitrate. destruct (bitrate m) as [[|b]|]; try reflexivity.
  intros ->. reflexivity.
Qed.

(** C2: for every metadata whose bitrate is known (a non-zero number [b] of
    bits per second) the target bitrate is [max(32, floor(b / 1000))]
    kbps, it is the bitrate of the command for an [.mp3] output path, and
    for [b = 256000] it is 256 kbps. *)
Theorem C2_target_bitrate_from_source
    (m : AudioMetadata) (b : Z) (inputPath outputPath : string)
    (Hb : bitrate m = Some (Num b)) (Hknown : b <> 0)
    (Hext : toLowerCase (Path.extname outputPath) = ".mp3") :
  targetBitrate (Some m) = Some (Z.max 32 (b / 1000))
  /\ audioBitrate (removeSilence_command inputPath outputPath (Some m)).1
     = Some (Z.max 32 (b / 1000))
  /\ Z.max 32 (256000 / 1000) = 256.
Proof.
  pose proof (targetBitrate_known m b Hb Hknown) as Ht.
  unfold targetKbps in Ht. split; [exact Ht|]. split; [|reflexivity].
  pose proof (selection_table_code inputPath outputPath (Some m)) as Hsel.
  rewrite Hext, Ht in Hsel. unfold selection in Hsel.
  injection Hsel as _ Hbr _. exact Hbr.
Qed.

(** C2 at a 256000 bit/s source written to an [.mp3] path. *)
Lemma C2_witness :
  let m := sample_metadata (Some (Num 256000)) in
  targetBitrate (Some m) = Some 256
  /\ audioBitrate (removeSilence_command "/srv/uploads/1-2.mp3"
                                         "/srv/output/trimmed-1.mp3" (Some m)).1
     = Some 256
  /\ Z.max 32 (256000 / 1000) = 256.
Proof.
  apply (C2_target_bitrate_from_source
           (sample_metadata (Some (Num 256000))) 256000
           "/srv/uploads/1-2.mp3" "/srv/output/trimmed-1.mp3").
  - reflexivity.
  - lia.
  - reflexivity.
Defined.

(** C4: every command built by [removeSilence] carries exactly one audio
    filter, [silenceremove], with [stop_periods=-1] (removal repeated
    without limit over the whole file), [stop_duration=0.5] seconds and
    [stop_threshold=-30dB], whatever the paths and the metadata. *)
Theorem C4_single_silence_filter :
  forall inputPath outputPath metadata,
    audioFilters (removeSilence_command inputPath outputPath metadata).1
    = [silenceremove]
    /\ filter_description silenceremove
       = ("silenceremove",
          [("stop_periods", "-1"); ("stop_duration", "0.5");
           ("stop_threshold", "-30dB")]).
Proof.
  intros inputPath outputPath metadata. split; [|reflexivity].
  unfold removeSilence_command.
  generalize (toLowerCase (Path.extname outputPath)) as e. intros e.
  destruct (targetBitrate metadata); split_ext e; reflexivity.
Qed.

Lemma legacy_selection_table inputPath outputPath :
  selection (legacy_removeSilence_command inputPath outputPath)
  = table_legacy (toLowerCase (Path.extname outputPath)).
Proof.
  unfold legacy_removeSilence_command, table_legacy, is_ext, existsb.
  generalize (toLowerCase (Path.extname outputPath)) as e. intros e.
  split_ext e; reflexivity.
Qed.

(** C9: the legacy pipeline selects by extension alone, 192 kbps MP3 for
    [.mp3]/[.mpeg], 192 kbps AAC for [.m4a]/[.mp4] and any other
    extension, Vorbis at the codec default for [.ogg], 16-bit PCM for
    [.wav]; the metadata-aware pipeline selects something else for a
    source of 128000 bits per second written to an [.mp3] path, and also
    when the source bitrate is unknown, so the two are not equivalent. *)
Theorem C9_legacy_fixed_and_different :
  (forall inputPath outputPath,
      selection (legacy_removeSilence_command inputPath outputPath)
      = table_legacy (toLowerCase (Path.extname outputPath)))
  /\ (let m := sample_metadata (Some (Num 128000)) in
      selection (removeSilence_command "in.mp3" "out.mp3" (Some m)).1 = mp3 128
      /\ selection (legacy_removeSilence_command "in.mp3" "out.mp3") = mp3 192)
  /\ (exists inputPath outputPath metadata,
        (removeSilence_command inputPath outputPath metadata).1
        <> legacy_removeSilence_command inputPath outputPath)
  /\ (removeSilence_command "in.m4a" "out.m4a" None).1
     <> legacy_removeSilence_command "in.m4a" "out.m4a".
Proof.
  split; [apply legacy_selection_table|].
  split; [split; reflexivity|].
  split.
  - exists "in.mp3", "out.mp3", (Some (sample_metadata (Some (Num 128000)))).
    vm_compute. discriminate.
  - vm_compute. discriminate.
Qed.

End SelectionProps.

(** ** The prober *)

Module ProbeProps.
Import Js Probe Pipeline Table Samples.

Lemma floor_times8_div_floor (fileSizeBytes : Z) (durationSeconds : Q) :
  floor_of_quotient fileSizeBytes durationSeconds
    (floor_times8_div (Num fileSizeBytes) (FNum durationSeconds)).
Proof.
  unfold floor_of_quotient, floor_times8_div, floor.
  unfold Double.div, Double.mul, Double.prec, Double.emax.
  destruct (SFdiv 53 1024 _ _) as [sz|si| |negative m e]; try exact I;
    try reflexivity.
  exists (Qfloor (Double.value negative m e)).
  split; [reflexivity|]. split; [apply Qfloor_le|apply Qlt_floor].
Qed.

Lemma computed_tier_value (f : Format) :
  computed_bitrate f
    (Some (floor_times8_div (parseInt (format_size f))
                            (parseFloat (format_duration f)))).
Proof.
  unfold computed_bitrate.
  destruct (parseInt (format_size f)) as [|fileSizeBytes],
           (parseFloat (format_duration f)) as [|negative|durationSeconds];
    try reflexivity.
  eexists. split; [reflexivity|apply floor_times8_div_floor].
Qed.

Lemma resolve_bitrate_priority (audioStream : Stream) (fmt : option Format) :
  resolved_by_priority audioStream fmt (resolve_bitrate audioStream fmt).
Proof.
  unfold resolved_by_priority, resolve_bitrate, computed_tier, container_tier,
    stream_tier, last_read, parseable, computable, known.
  generalize (parseInt (bit_rate audioStream)) as ps.
  generalize (truthy (bit_rate audioStream)) as ts.
  intros ts ps.
  assert (Hnull : truthy_num None = false) by reflexivity.
  destruct fmt as [f|].
  - pose proof (computed_tier_value f) as Hc. revert Hc.
    generalize (floor_times8_div (parseInt (format_size f))
                                 (parseFloat (format_duration f))) as fl.
    generalize (gt_zero (parseFloat (format_duration f))) as g.
    generalize (truthy (format_duration f)) as td.
    generalize (truthy (format_size f)) as tz.
    generalize (parseInt (format_bit_rate f)) as pc.
    generalize (truthy (format_bit_rate f)) as tc.
    intros tc pc tz td g fl Hc.
    destruct ts; cbn [andb negb];
      [destruct (truthy_num (Some ps)) eqn:Hp|rewrite Hnull];
      cbn [andb negb]; rewrite ?Hp, ?Hnull; cbn [andb negb];
      destruct tc; cbn [andb negb];
      try (destruct (truthy_num (Some pc)) eqn:Hq);
      rewrite ?Hp, ?Hq, ?Hnull; cbn [andb negb];
      destruct tz, td, g; cbn [andb negb];
      rewrite ?Hp, ?Hq, ?Hnull;
      first [exact Hc | reflexivity | split; first [reflexivity|assumption]].
  - cbn [truthy].
    destruct ts; cbn [andb negb];
      [destruct (truthy_num (Some ps)) eqn:Hp|];
      first [reflexivity | split; first [reflexivity|assumption]].
Qed.

(** C3 (as stated, refuted): an audio stream whose [bit_rate] is the string
    [N/A], in a file for which ffprobe reports no container data, gives no
    tier a usable value; the probe succeeds, but the bitrate it returns is
    [NaN], the result of [parseInt], and not an unset one. *)
Lemma C3_unparseable_bitrate_is_not_unset :
  let audioStream := sample_stream (Str "N/A") in
  parseable (bit_rate audioStream) = false
  /\ getAudioMetadata (inr {| streams := [audioStream]; format := None |})
     = inr {| bitrate := Some NaN; codec := Str "mp3";
              sampleRate := Number (inject_Z 44100);
              channelCount := Number (inject_Z 2) |}
  /\ resolve_bitrate audioStream None <> None.
Proof. repeat split. discriminate. Qed.

(** C3 (amended): whatever ffprobe reports, [getAudioMetadata] fails exactly
    when the tool invocation failed or no stream of type audio exists;
    otherwise it succeeds with the codec, sample rate and channel count of
    the first audio stream and a bitrate resolved in priority order: the
    stream's [bit_rate] if present and parsing to a non-zero number, else
    the container's [bit_rate] if present and parsing to a non-zero number,
    else [floor(size * 8 / duration)] in binary64 arithmetic when size and
    duration are present and the duration is positive, else a value that
    is not usable: [null] when no bit rate property was read, and
    otherwise the [NaN] or [0] that the last one read parsed to. *)
Theorem C3_probe_bitrate_priority :
  forall probe : string + ProbeData,
    match probe with
    | inl err => getAudioMetadata probe = inl (ProbeFailed err)
    | inr data =>
        match List.find is_audio (streams data) with
        | None => getAudioMetadata probe = inl NoAudioStream
        | Some audioStream =>
            exists b,
              getAudioMetadata probe
              = inr {| bitrate := b; codec := codec_name audioStream;
                       sampleRate := sample_rate audioStream;
                       channelCount := channels audioStream |}
              /\ resolved_by_priority audioStream (format data) b
        end
    end.
Proof.
  intros [err|data]; simpl; [reflexivity|].
  destruct (List.find is_audio (streams data)) as [audioStream|];
    [|reflexivity].
  exists (resolve_bitrate audioStream (format data)).
  split; [reflexivity|apply resolve_bitrate_priority].
Qed.

Example probe_stream_tier :
  resolve_bitrate (sample_stream (Str "192000")) (Some sample_format)
  = Some (Num 192000).
Proof. reflexivity. Qed.

Example probe_container_tier :
  resolve_bitrate (sample_stream (Str "N/A"))
    (Some {| format_bit_rate := Number (inject_Z 160000);
             format_size := Undefined; format_duration := Undefined |})
  = Some (Num 160000).
Proof. reflexivity. Qed.

Example probe_computed_tier :
  resolve_bitrate (sample_stream Undefined) (Some sample_format)
  = Some (Num 128000).
Proof. vm_compute. reflexivity. Qed.

(** Both the duration and the quotient are rounded to doubles, so the
    result is not always the floor of the quotient of the decimal numbers:
    [17120 * 8 / 1.07] is 128000, but [1.070000] is read as the double just
    above 1.07, and the quotient by it is below 128000. Nor is it always
    the floor of the exact quotient by that double: [8016 * 8] divided by
    the double read from [1.002000] is just below 64000, and the double
    nearest to that quotient is 64000. *)
Example probe_computed_rounded_divisor :
  resolve_bitrate (sample_stream Undefined)
    (Some {| format_bit_rate := Str "N/A"; format_size := Str "17120";
             format_duration := Str "1.070000" |})
  = Some (Num 127999).
Proof. vm_compute. reflexivity. Qed.

Example probe_computed_rounded_quotient :
  resolve_bitrate (sample_stream Undefined)
    (Some {| format_bit_rate := Str "N/A"; format_size := Str "8016";
             format_duration := Str "1.002000" |})
  = Some (Num 64000).
Proof. vm_compute. reflexivity. Qed.

Example probe_unset :
  getAudioMetadata (inr {| streams := [sample_stream Undefined]; format := None |})
  = inr {| bitrate := None; codec := Str "mp3";
           sampleRate := Number (inject_Z 44100);
           channelCount := Number (inject_Z 2) |}.
Proof. reflexivity. Qed.

Example probe_no_audio :
  getAudioMetadata
    (inr {| streams := [ {| codec_type := Str "video"; bit_rate := Undefined;
                            codec_name := Str "h264"; sample_rate := Undefined;
                            channels := Undefined |} ];
            format := Some sample_format |})
  = inl NoAudioStream.
Proof. reflexivity. Qed.

Lemma stream_tier_unusable (s : Stream) :
  parseInt (bit_rate s) = NaN \/ parseInt (bit_rate s) = Num 0 ->
  truthy_num (stream_tier s) = false.
Proof.
  unfold stream_tier. intros [H|H]; destruct (truthy (bit_rate s));
    rewrite ?H; reflexivity.
Qed.

Lemma tiers_from_unusable (fmt : option Format) (b1 b2 : option number) :
  truthy_num b1 = false -> truthy_num b2 = false ->
  let r1 := computed_tier fmt (container_tier fmt b1) in
  let r2 := computed_tier fmt (container_tier fmt b2) in
  truthy_num r1 = truthy_num r2 /\ (truthy_num r1 = true -> r1 = r2).
Proof.
  intros H1 H2. unfold computed_tier, container_tier.
  destruct fmt as [f|]; simpl.
  - rewrite H1, H2. simpl.
    destruct (truthy (format_bit_rate f)); simpl.
    + split; [reflexivity|]. intros _. reflexivity.
    + rewrite H1, H2. simpl.
      destruct (truthy (format_size f)), (truthy (format_duration f)); simpl;
        try (split; [congruence|intros; congruence]).
      destruct (gt_zero (parseFloat (format_duration f)));
        split; congruence.
  - split; congruence.
Qed.

Lemma resolve_bitrate_computed (audioStream : Stream) (f : Format) :
  parseable (bit_rate audioStream) = false ->
  parseable (format_bit_rate f) = false ->
  computable f = true ->
  resolve_bitrate audioStream (Some f)
  = Some (floor_times8_div (parseInt (format_size f))
                           (parseFloat (format_duration f))).
Proof.
  unfold resolve_bitrate, computed_tier, container_tier, stream_tier,
    parseable, computable, known.
  generalize (parseInt (bit_rate audioStream)) as ps.
  generalize (truthy (bit_rate audioStream)) as ts.
  generalize (gt_zero (parseFloat (format_duration f))) as g.
  generalize (truthy (format_duration f)) as td.
  generalize (truthy (format_size f)) as tz.
  generalize (parseInt (format_bit_rate f)) as pc.
  generalize (truthy (format_bit_rate f)) as tc.
  intros tc pc tz td g ts ps Hs Hc Hg.
  assert (Hnull : truthy_num None = false) by reflexivity.
  destruct tz, td, g; try discriminate Hg.
  destruct ts, tc; cbn [andb negb] in *;
    rewrite ?Hs, ?Hc, ?Hnull; cbn [andb negb];
    rewrite ?Hs, ?Hc, ?Hnull; reflexivity.
Qed.

Lemma unusable_not_parseable (v : value) :
  parseInt v = NaN \/ parseInt v = Num 0 -> parseable v = false.
Proof.
  unfold parseable, known. intros [H|H]; rewrite H;
    destruct (truthy v); reflexivity.
Qed.

(** C10: a stream bitrate that parses to [NaN] or to [0] is handled by the
    probe like an absent one. The result is then the container's
    [bit_rate] when that parses to a non-zero number; else the bitrate
    computed from size and duration when both are present and the duration
    is positive; else a value that is not usable. It is known exactly when
    it would be with the stream's property removed, and then the same. A
    metadata object whose bitrate is [0] (or [NaN]) makes [removeSilence]
    build the command it builds with no metadata: 128 kbps for [.mp3],
    96 kbps for AAC targets, never the clamp [max(32, 0)]. *)
Theorem C10_zero_bitrate_is_unknown
    (s : Stream) (fmt : option Format) (m : AudioMetadata)
    (inputPath outputPath : string)
    (Hs : parseInt (bit_rate s) = NaN \/ parseInt (bit_rate s) = Num 0)
    (Hm : bitrate m = Some (Num 0) \/ bitrate m = Some NaN) :
  (known (resolve_bitrate s fmt)
   = known (resolve_bitrate (without_bit_rate s) fmt)
   /\ (known (resolve_bitrate s fmt) = true ->
       resolve_bitrate s fmt = resolve_bitrate (without_bit_rate s) fmt))
  /\ match fmt with
     | Some f =>
         if parseable (format_bit_rate f)
         then resolve_bitrate s fmt = Some (parseInt (format_bit_rate f))
         else if computable f
         then computed_bitrate f (resolve_bitrate s fmt)
         else known (resolve_bitrate s fmt) = false
     | None => known (resolve_bitrate s fmt) = false
     end
  /\ targetBitrate (Some m) = None
  /\ removeSilence_command inputPath outputPath (Some m)
     = removeSilence_command inputPath outputPath None
  /\ selection (removeSilence_command inputPath outputPath (Some m)).1
     = table_code (toLowerCase (Path.extname outputPath)) None
  /\ table_code ".mp3" None = mp3 128
  /\ table_code ".m4a" None = aac_lc 96
  /\ table_code ".flac" None = aac 96.
Proof.
  assert (Ht : targetBitrate (Some m) = None).
  { unfold targetBitrate. destruct Hm as [-> | ->]; reflexivity. }
  split; [|split].
  - unfold known, resolve_bitrate.
    apply tiers_from_unusable; [apply stream_tier_unusable; exact Hs|].
    reflexivity.
  - pose proof (resolve_bitrate_priority s fmt) as Hp.
    unfold resolved_by_priority in Hp.
    rewrite (unusable_not_parseable _ Hs) in Hp.
    destruct fmt as [f|].
    + destruct (parseable (format_bit_rate f)); [exact Hp|].
      destruct (computable f); [exact Hp|]. apply Hp.
    + apply Hp.
  - split; [exact Ht|]. split.
    + unfold removeSilence_command. rewrite Ht. reflexivity.
    + split; [|repeat split].
      rewrite SelectionProps.selection_table_code, Ht. reflexivity.
Qed.

(** C10 at a stream reporting [bit_rate = "0"] in a container that
    reports 160000 bits per second, and at a metadata object with bitrate
    [0]. *)
Lemma C10_witness :
  let s := sample_stream (Str "0") in
  let f := {| format_bit_rate := Number (inject_Z 160000);
              format_size := Number (inject_Z 1000000);
              format_duration := Str "62.500000" |} in
  let m := sample_metadata (Some (Num 0)) in
  resolve_bitrate s (Some f) = Some (Num 160000)
  /\ selection (removeSilence_command "in.mp3" "out.mp3" (Some m)).1 = mp3 128.
Proof.
  pose proof (C10_zero_bitrate_is_unknown
                (sample_stream (Str "0"))
                (Some {| format_bit_rate := Number (inject_Z 160000);
                         format_size := Number (inject_Z 1000000);
                         format_duration := Str "62.500000" |})
                (sample_metadata (Some (Num 0)))
                "in.mp3" "out.mp3"
                (or_intror eq_refl) (or_introl eq_refl)) as H.
  destruct H as [_ [Hp [_ [_ [Hsel _]]]]].
  split.
  - exact Hp.
  - rewrite Hsel. reflexivity.
Defined.

(** The same stream in a container without a bit rate falls through to
    the computed tier. *)
Example zero_stream_bitrate_computed :
  resolve_bitrate (sample_stream (Str "0")) (Some sample_format)
  = Some (Num 128000).
Proof. vm_compute. reflexivity. Qed.

End ProbeProps.

(** ** Artifact names *)

Module NamesProps.
Import Path Names.

Lemma substring_at (s : string) :
  forall (n m : nat) (c : ascii),
    list_ascii_of_string s !! n = Some c ->
    exists r, String.substring n (S m) s = String c r.
Proof.
  induction s as [|a s IH]; intros [|n] m c H; simpl in *; try discriminate.
  - injection H as ->. eexists; reflexivity.
  - apply IH. exact H.
Qed.

Lemma scan_inv_loop (rs : list ascii) :
  forall (suffix : list ascii) (i : Z) (st : scan),
    i + 1 = Z.of_nat (List.length rs) ->
    scan_inv (rev rs ++ suffix) i st ->
    scan_inv (rev rs ++ suffix) (-1) (extname_loop rs i st).
Proof.
  induction rs as [|code rs IH]; intros suffix i st Hi Hinv.
  - simpl in *. replace i with (-1) in Hinv by lia. exact Hinv.
  - assert (Hcode : (rev (code :: rs) ++ suffix) !! Z.to_nat i = Some code).
    { simpl. rewrite <- app_assoc. simpl.
      replace (Z.to_nat i) with (List.length (rev rs))
        by (rewrite length_rev; simpl in Hi; lia).
      apply list_lookup_middle. reflexivity. }
    assert (Hnext : forall st', scan_inv (rev (code :: rs) ++ suffix) (i - 1) st' ->
              scan_inv (rev (code :: rs) ++ suffix) (-1)
                       (extname_loop rs (i - 1) st')).
    { intros st' H'. simpl. rewrite <- app_assoc. simpl.
      apply IH; [simpl in Hi; lia|].
      simpl in H'. rewrite <- app_assoc in H'. exact H'. }
    assert (Hi0 : 0 <= i) by (simpl in Hi; lia).
    destruct Hinv as [Hend Hdot].
    cbn [extname_loop].
    destruct (Ascii.eqb_spec code "/") as [Hslash|Hslash].
    + destruct (matchedSlash st); cbn [negb].
      * apply Hnext. split; [lia|]. destruct Hdot as [?|(?&?&?)];
          [left; assumption|right; repeat split; [lia|lia|assumption]].
      * split; simpl; [lia|]. destruct Hdot as [?|(?&?&?)];
          [left; assumption|right; repeat split; [lia|lia|assumption]].
    + apply Hnext.
      destruct (Z.eqb_spec (end_ st) (-1)) as [He|He];
        destruct (Ascii.eqb_spec code ".") as [Hd|Hd]; cbn [startDot end_];
        repeat match goal with
               | |- context [Z.eqb ?a ?b] => destruct (Z.eqb_spec a b)
               end;
        cbn [negb startDot end_ preDotState matchedSlash startPart];
        (split; cbn [startDot end_];
         [lia
         |destruct Hdot as [Hnone|(Hlo & Hhi & Hchar)];
          first [ left; lia
                | right; repeat split;
                  first [lia | assumption | subst code; assumption] ]]).
Qed.

(** The extension is empty or starts with a dot. *)
Lemma extname_dot (p : string) :
  extname p = EmptyString \/ exists r, extname p = String "." r.
Proof.
  unfold extname.
  set (chars := list_ascii_of_string p).
  set (st := extname_loop (rev chars) (Z.of_nat (List.length chars) - 1) scan0).
  assert (Hinv : scan_inv chars (-1) st).
  { pose proof (scan_inv_loop (rev chars) [] (Z.of_nat (List.length chars) - 1)
                  scan0) as H.
    rewrite rev_involutive, app_nil_r in H. apply H.
    - rewrite length_rev. lia.
    - split; left; reflexivity. }
  destruct (_ || _)%bool eqn:Hguard; [left; reflexivity|right].
  destruct Hinv as [_ [Hnone|(Hlo & Hhi & Hchar)]].
  { rewrite Hnone in Hguard. discriminate Hguard. }
  replace (Z.to_nat (end_ st - startDot st))
    with (S (Z.to_nat (end_ st - startDot st - 1))) by lia.
  apply substring_at. exact Hchar.
Qed.

Lemma stops_digits_extname (p : string) : stops_digits (extname p) = true.
Proof. destruct (extname_dot p) as [->|[r ->]]; reflexivity. Qed.

Lemma append_assoc (a b c : string) : (a +:+ b) +:+ c = a +:+ (b +:+ c).
Proof.
  induction a as [|x a IH]; [reflexivity|].
  change (String x ((a +:+ b) +:+ c) = String x (a +:+ (b +:+ c))).
  f_equal. exact IH.
Qed.

Lemma is_digit_pretty_char (x : N) : is_digit (pretty_N_char x) = true.
Proof. unfold pretty_N_char. repeat case_match; reflexivity. Qed.

Lemma all_digits_go (x : N) :
  forall s, all_digits s = true -> all_digits (pretty_N_go x s) = true.
Proof.
  induction (N.lt_wf_0 x) as [x _ IH]. intros s Hs.
  destruct (N.eq_dec x 0%N) as [->|Hx].
  - rewrite pretty_N_go_0. exact Hs.
  - rewrite pretty_N_go_step by lia. apply IH.
    + apply N.div_lt; lia.
    + simpl. rewrite is_digit_pretty_char. exact Hs.
Qed.

Lemma all_digits_pretty (n : N) : all_digits (pretty n) = true.
Proof.
  unfold pretty, pretty_N. case_decide; [reflexivity|].
  apply all_digits_go. reflexivity.
Qed.

(** A run of digits followed by something that is not a digit can be read
    back in one way only. *)
Lemma digits_prefix_unique (s1 : string) :
  forall s2 r1 r2,
    all_digits s1 = true -> all_digits s2 = true ->
    stops_digits r1 = true -> stops_digits r2 = true ->
    s1 +:+ r1 = s2 +:+ r2 -> s1 = s2 /\ r1 = r2.
Proof.
  induction s1 as [|c s1 IH]; intros [|d s2] r1 r2 H1 H2 Hr1 Hr2 Heq;
    simpl in *.
  - split; [reflexivity|exact Heq].
  - change (r1 = String d (s2 +:+ r2)) in Heq.
    subst r1. simpl in Hr1. apply andb_prop in H2 as [Hd _].
    rewrite Hd in Hr1. discriminate Hr1.
  - change (String c (s1 +:+ r1) = r2) in Heq.
    subst r2. simpl in Hr2. apply andb_prop in H1 as [Hc _].
    rewrite Hc in Hr2. discriminate Hr2.
  - change (String c (s1 +:+ r1) = String d (s2 +:+ r2)) in Heq.
    injection Heq as -> Heq.
    apply andb_prop in H1 as [_ H1]. apply andb_prop in H2 as [_ H2].
    destruct (IH s2 r1 r2 H1 H2 Hr1 Hr2 Heq) as [-> ->].
    split; reflexivity.
Qed.

Lemma pretty_ext_inj (a b : N) (e1 e2 : string) :
  stops_digits e1 = true -> stops_digits e2 = true ->
  pretty a +:+ e1 = pretty b +:+ e2 -> a = b /\ e1 = e2.
Proof.
  intros H1 H2 Heq.
  destruct (digits_prefix_unique _ _ _ _ (all_digits_pretty a)
              (all_digits_pretty b) H1 H2 Heq) as [Hp He].
  split; [|exact He]. apply (inj pretty). exact Hp.
Qed.

Lemma uploadFilename_inj (now now' rnd rnd' : N) (name name' : string) :
  uploadFilename now rnd name = uploadFilename now' rnd' name' ->
  now = now' /\ rnd = rnd' /\ extname name = extname name'.
Proof.
  unfold uploadFilename. rewrite !append_assoc. intros Heq.
  apply pretty_ext_inj in Heq as [Hnow Hrest]; try reflexivity.
  change (String "-" (pretty rnd +:+ extname name)
          = String "-" (pretty rnd' +:+ extname name')) in Hrest.
  injection Hrest as Hrest.
  apply pretty_ext_inj in Hrest as [Hrnd Hext];
    try apply stops_digits_extname.
  auto.
Qed.

Lemma outputFilename_inj (now now' : N) (name name' : string) :
  outputFilename now name = outputFilename now' name' ->
  now = now' /\ extname name = extname name'.
Proof.
  unfold outputFilename. intros Heq.
  apply (inj (String.append "trimmed-")) in Heq.
  apply pretty_ext_inj in Heq; try apply stops_digits_extname.
  exact Heq.
Qed.

(** Two uploads received in the same millisecond get different stored
    names, by their random suffixes, but the same output file name, which
    carries no random suffix. *)
Example same_millisecond_names :
  uploadFilename 1700000000000 111111111 "a.mp3"
  <> uploadFilename 1700000000000 222222222 "b.mp3"
  /\ outputFilename 1700000000000 "a.mp3" = "trimmed-1700000000000.mp3"
  /\ outputFilename 1700000000000 "a.mp3" = outputFilename 1700000000000 "b.mp3".
Proof.
  split; [|split; reflexivity].
  intros H. apply uploadFilename_inj in H as (_ & H & _). discriminate H.
Qed.

(** The two name generators read back: two stored upload names are equal
    only when timestamp, random suffix and extension all agree; two output
    names are equal exactly when timestamp and extension agree. *)
Lemma artifact_names_injective :
  forall (now now' rnd rnd' : N) (name name' : string),
    uploadFilename now rnd name
    = pretty now +:+ "-" +:+ pretty rnd +:+ extname name
    /\ outputFilename now name = "trimmed-" +:+ pretty now +:+ extname name
    /\ (uploadFilename now rnd name = uploadFilename now' rnd' name'
        <-> now = now' /\ rnd = rnd' /\ extname name = extname name')
    /\ (outputFilename now name = outputFilename now' name'
        <-> now = now' /\ extname name = extname name').
Proof.
  intros now now' rnd rnd' name name'.
  split; [unfold uploadFilename; rewrite !append_assoc; reflexivity|].
  split; [reflexivity|]. split; split.
  - apply uploadFilename_inj.
  - intros (-> & -> & Hext). unfold uploadFilename. rewrite Hext. reflexivity.
  - apply outputFilename_inj.
  - intros (-> & Hext). unfold outputFilename. rewrite Hext. reflexivity.
Qed.

End NamesProps.

(** ** The size statistics *)

Module StatsProps.
Import Stats.

Lemma hundredths_not_negative (x : Q) :
  Qle 0 x -> 0 <= Qfloor (Qplus (Qmult x (inject_Z 100)) (1 # 2)).
Proof.
  intros H. change 0 with (Qfloor 0). apply Qfloor_resp_le.
  replace 0%Q with (0 * inject_Z 100 + 0)%Q by reflexivity.
  apply Qplus_le_compat; [|discriminate].
  apply Qmult_le_compat_r; [exact H|discriminate].
Qed.

Lemma mod_100_mod_10 (h : N) : (h mod 100 mod 10 = h mod 10)%N.
Proof.
  change 100%N with (10 * 10)%N.
  rewrite N.Div0.mod_mul_r.
  rewrite (N.mul_comm 10 (_ mod 10)%N), N.Div0.mod_add.
  apply N.Div0.mod_mod.
Qed.

(** What [toFixed2] prints is its argument rounded to two decimals. *)
Lemma toFixed2_rounded (x : spec_float) :
  rounded_to_2_decimals x (toFixed2 x).
Proof.
  destruct x as [sz|negative| |negative m e]; try reflexivity.
  unfold rounded_to_2_decimals, toFixed2.
  set (n := Qfloor (Qplus (Qmult (Double.magnitude m e) (inject_Z 100)) (1 # 2))).
  assert (Hn : 0 <= n)
    by apply hundredths_not_negative, DoubleProps.magnitude_not_negative.
  exists (Z.to_N n). rewrite Z2N.id by exact Hn.
  split; [apply Qfloor_le|]. split; [apply Qlt_floor|].
  unfold fixed2, two_digits. rewrite mod_100_mod_10. reflexivity.
Qed.

Lemma reduction_rounded (originalSize newSize : Z) :
  rounded_to_2_decimals (reductionPercent originalSize newSize)
                        (reduction originalSize newSize).
Proof. apply toFixed2_rounded. Qed.

Example reduction_quarter : sizeReduction 1000000 750000 = "25.00%".
Proof. vm_compute. reflexivity. Qed.

Example reduction_third : sizeReduction 3 1 = "66.67%".
Proof. vm_compute. reflexivity. Qed.

Example reduction_growth : sizeReduction 100 101 = "-1.00%".
Proof. vm_compute. reflexivity. Qed.

(** The percentage is a double, so a quotient that lies exactly between
    two hundredths can be printed as the lower one: [201 / 20000 * 100] is
    the double just below 1.005, and [97 / 160 * 100] the one just below
    60.625. *)
Example reduction_below_tie : sizeReduction 20000 19799 = "1.00%".
Proof. vm_compute. reflexivity. Qed.

Example reduction_below_tie_2 : sizeReduction 160 63 = "60.62%".
Proof. vm_compute. reflexivity. Qed.

Example reduction_of_empty_upload :
  sizeReduction 0 0 = "NaN%" /\ sizeReduction 0 4096 = "-Infinity%".
Proof. split; vm_compute; reflexivity. Qed.

End StatsProps.

(** ** The upload handler *)

Module HandlerProps.
Import Js Probe Pipeline Names Stats Handler Table Samples.

Section Run.

Variable ffprobe : string -> gmap string Z -> string + ProbeData.
Variable save : Command -> string -> gmap string Z
                -> gmap string Z * option string.
Variable outputDir : string.

Lemma guarded_unlink (p : string) (fs : gmap string Z) (tr : list Event)
    (st : option (Response * gmap string Z)) :
  when (bool_decide (is_Some (fs !! p))) (unlinkSync p)
       {| files := fs; trace := tr; sent := st |}
  = ({| files := delete p fs;
        trace := tr ++ (if bool_decide (is_Some (fs !! p))
                        then [Unlink p] else []);
        sent := st |}, inr tt).
Proof.
  unfold when, unlinkSync; simpl.
  destruct (fs !! p) as [size|] eqn:Hp.
  - rewrite bool_decide_eq_true_2 by (eexists; reflexivity).
    simpl. rewrite Hp. reflexivity.
  - rewrite bool_decide_eq_false_2 by (intros [? ?]; discriminate).
    unfold mret, M_ret. rewrite delete_id by exact Hp.
    rewrite app_nil_r. reflexivity.
Qed.

Lemma on_error_run (inputPath outputPath message : string)
    (before : list Event) (fs : gmap string Z) :
  (on_error inputPath outputPath message
     {| files := fs; trace := before; sent := None |}).1
  = failed inputPath outputPath before fs message.
Proof.
  unfold on_error, failed, cleaned, unlinks.
  unfold mbind, M_bind, emit, existsSync; simpl.
  rewrite guarded_unlink; simpl.
  rewrite guarded_unlink; simpl.
  unfold respond; simpl. rewrite <- !app_assoc. reflexivity.
Qed.

Lemma removeSilence_run (inputPath outputPath : string)
    (metadata : option AudioMetadata) (before : list Event)
    (fs : gmap string Z) :
  removeSilence save inputPath outputPath metadata
    {| files := fs; trace := before; sent := None |}
  = let built := removeSilence_command inputPath outputPath metadata in
    let ran := save built.1 outputPath fs in
    let tr := before ++ (ConsoleLog <$> built.2) ++ [Save built.1 outputPath] in
    match ran.2 with
    | None =>
        ({| files := ran.1;
            trace := tr ++ [ConsoleLog "Audio processing finished"];
            sent := None |}, inr tt)
    | Some err =>
        ({| files := ran.1;
            trace := tr ++ [ConsoleError "Error processing audio:"];
            sent := None |}, inl err)
    end.
Proof.
  unfold removeSilence.
  destruct (removeSilence_command inputPath outputPath metadata)
    as [command lines]; simpl.
  destruct (save command outputPath fs) as [fs' [err|]]; reflexivity.
Qed.

Lemma trim_silence_outcome (f : File) (now : N) (fs : gmap string Z) :
  (trim_silence ffprobe save outputDir (Some f) now (world0 fs)).1
  = outcome ffprobe save outputDir f now fs.
Proof.
  unfold trim_silence, outcome, try_catch, metadata_or_null, probe_line.
  set (inputPath := path f).
  set (outputPath := join outputDir (outputFilename now (originalname f))).
  unfold mbind at 1 2 3. unfold M_bind at 1 2 3.
  unfold emit at 1, probe at 1. simpl.
  destruct (getAudioMetadata (ffprobe inputPath fs)) as [e|m];
    unfold mbind at 1 2; unfold M_bind at 1 2; unfold emit at 1; simpl;
    rewrite removeSilence_run; simpl.
  all: match goal with
       | |- context [save ?c ?o ?s] => destruct (save c o s) as [fs' [err|]]
       end; simpl.
  all: try (rewrite on_error_run; reflexivity).
  all: unfold mbind at 1 2; unfold M_bind at 1 2; unfold existsSync at 1;
    simpl.
  all: destruct (fs' !! outputPath) as [newSize|] eqn:Hout.
  all: try (rewrite bool_decide_eq_false_2 by (intros [? ?]; discriminate);
            simpl; rewrite on_error_run; reflexivity).
  all: rewrite bool_decide_eq_true_2 by (eexists; reflexivity); simpl.
  all: unfold mbind at 1 2; unfold M_bind at 1 2; unfold statSync_size at 1;
    simpl; rewrite Hout.
  all: unfold statSync_size at 1; simpl.
  all: destruct (fs' !! inputPath) as [originalSize|] eqn:Hin; simpl.
  all: try (rewrite on_error_run; reflexivity).
  all: unfold sizeReduction; rewrite <- !app_assoc; reflexivity.
Qed.

Lemma quiet_nil : quiet [].
Proof. intros r. apply not_elem_of_nil. Qed.

Lemma quiet_cons (e : Event) (tr : list Event) :
  (forall r, e <> Respond r) -> quiet tr -> quiet (e :: tr).
Proof.
  intros He Htr r Hin. apply elem_of_cons in Hin as [Heq|Hin].
  - exact (He r (eq_sym Heq)).
  - exact (Htr r Hin).
Qed.

Lemma quiet_app (tr1 tr2 : list Event) :
  quiet tr1 -> quiet tr2 -> quiet (tr1 ++ tr2).
Proof.
  intros H1 H2 r Hin. apply elem_of_app in Hin as [Hin|Hin].
  - exact (H1 r Hin).
  - exact (H2 r Hin).
Qed.

Lemma quiet_logs (lines : list string) : quiet (ConsoleLog <$> lines).
Proof.
  induction lines as [|line lines IH]; [apply quiet_nil|].
  apply quiet_cons; [discriminate|exact IH].
Qed.

Lemma quiet_unlinks (inputPath outputPath : string) (fs : gmap string Z) :
  quiet (unlinks inputPath outputPath fs).
Proof.
  unfold unlinks. apply quiet_app; case_bool_decide;
    try apply quiet_nil; (apply quiet_cons; [discriminate|apply quiet_nil]).
Qed.

Lemma quiet_probe_line (probed : ProbeError + AudioMetadata) (r : Response) :
  probe_line probed <> Respond r.
Proof. destruct probed; discriminate. Qed.

Create HintDb quiet.
#[local] Hint Resolve quiet_nil quiet_logs quiet_unlinks quiet_probe_line
  : quiet.

Ltac solve_quiet :=
  repeat first
    [ solve [auto with quiet]
    | apply quiet_app
    | apply quiet_cons; [first [discriminate | apply quiet_probe_line]|] ].

Lemma outcome_ran (f : File) (now : N) (fs : gmap string Z) :
  save (removeSilence_command (path f)
          (join outputDir (outputFilename now (originalname f)))
          (metadata_or_null (getAudioMetadata (ffprobe (path f) fs)))).1
       (join outputDir (outputFilename now (originalname f))) fs
  = run_result ffprobe save outputDir f now fs.
Proof. reflexivity. Qed.

Lemma failed_clean (inputPath outputPath message : string)
    (before : list Event) (fs : gmap string Z) :
  let w := failed inputPath outputPath before fs message in
  sent w = Some (Failure500 message, files w)
  /\ files w !! inputPath = None
  /\ files w !! outputPath = None.
Proof.
  unfold failed, cleaned; simpl. split; [reflexivity|].
  split; [|apply lookup_delete_eq].
  destruct (decide (outputPath = inputPath)) as [->|Hne].
  - apply lookup_delete_eq.
  - rewrite lookup_delete_ne by exact Hne. apply lookup_delete_eq.
Qed.

(** C5: when the probe fails, for whatever reason, the handler logs a
    warning and runs the transcoder on the command [removeSilence] builds
    with no metadata, whose codec and bitrate are the defaults of the
    output extension; the request then succeeds with status 200 whenever
    the transcoder reports no error and input and output files exist, and
    fails only for a transcode failure or a missing file. *)
Theorem C5_probe_failure_is_not_fatal
    (f : File) (now : N) (fs : gmap string Z) (e : ProbeError)
    (Hfail : getAudioMetadata (ffprobe (path f) fs) = inl e) :
  let inputPath := path f in
  let outputFilename := outputFilename now (originalname f) in
  let outputPath := join outputDir outputFilename in
  let defaults := removeSilence_command inputPath outputPath None in
  let ran := save defaults.1 outputPath fs in
  let w := (trim_silence ffprobe save outputDir (Some f) now (world0 fs)).1 in
  (exists rest,
      trace w
      = [ConsoleLog ("Processing audio file: " +:+ originalname f);
         Ffprobe inputPath;
         ConsoleWarn ("Could not read audio metadata, using defaults: "
                      +:+ error_message e)]
        ++ (ConsoleLog <$> defaults.2)
        ++ [Save defaults.1 outputPath] ++ rest)
  /\ selection defaults.1
     = table_code (toLowerCase (Path.extname outputPath)) None
  /\ match ran.2, ran.1 !! outputPath, ran.1 !! inputPath with
     | None, Some newSize, Some originalSize =>
         sent w
         = Some (Success200 outputFilename ("/api/download/" +:+ outputFilename)
                            originalSize newSize
                            (sizeReduction originalSize newSize),
                 ran.1)
     | _, _, _ => exists message, sent w = Some (Failure500 message, files w)
     end.
Proof.
  intros inputPath outputFilename outputPath defaults ran w.
  assert (Hw : w = outcome ffprobe save outputDir f now fs)
    by apply trim_silence_outcome.
  unfold outcome in Hw. rewrite Hfail in Hw. simpl in Hw.
  fold inputPath outputFilename outputPath defaults ran in Hw.
  split; [|split].
  - rewrite Hw.
    destruct (ran.2) as [err|];
      [|destruct (ran.1 !! outputPath), (ran.1 !! inputPath)];
      unfold failed; simpl; rewrite <- ?app_assoc; eexists; reflexivity.
  - unfold defaults. rewrite SelectionProps.selection_table_code. reflexivity.
  - rewrite Hw.
    destruct (ran.2) as [err|];
      [|destruct (ran.1 !! outputPath), (ran.1 !! inputPath)];
      try reflexivity; eexists; reflexivity.
Qed.

(** C6: when the transcoder reports an error, or reports none but leaves
    no file at the output path, the handler answers with status 500, and
    by the time that response is sent neither the input artifact nor any
    file at the computed output path exists; nothing was sent before. *)
Theorem C6_fatal_failure_cleans_up
    (f : File) (now : N) (fs : gmap string Z)
    (Hfatal : is_Some (run_result ffprobe save outputDir f now fs).2
              \/ (run_result ffprobe save outputDir f now fs).1
                   !! run_outputPath outputDir f now = None) :
  let w := (trim_silence ffprobe save outputDir (Some f) now (world0 fs)).1 in
  exists message atSend earlier,
    sent w = Some (Failure500 message, atSend)
    /\ atSend !! path f = None
    /\ atSend !! run_outputPath outputDir f now = None
    /\ files w = atSend
    /\ trace w = earlier ++ [Respond (Failure500 message)]
    /\ quiet earlier.
Proof.
  intros w.
  assert (Hw : w = outcome ffprobe save outputDir f now fs)
    by apply trim_silence_outcome.
  unfold outcome in Hw. rewrite outcome_ran in Hw.
  fold (run_outputPath outputDir f now) in Hw.
  set (ran := run_result ffprobe save outputDir f now fs) in *.
  set (outputPath := run_outputPath outputDir f now) in *.
  assert (Hfailed : exists before message,
             w = failed (path f) outputPath before (ran.1) message
             /\ quiet before).
  { fold (probe_line (getAudioMetadata (ffprobe (path f) fs))) in Hw.
    destruct (ran.2) as [err|] eqn:Herr.
    - eexists _, err. split; [exact Hw|]. solve_quiet.
    - destruct Hfatal as [[err Habs]|Hnone]; [discriminate Habs|].
      rewrite Hnone in Hw. eexists _, _. split; [exact Hw|]. solve_quiet. }
  destruct Hfailed as (before & message & -> & Hfresh).
  exists message, (cleaned (path f) outputPath (ran.1)),
    (before ++ [ConsoleError "Error processing audio:"]
       ++ unlinks (path f) outputPath (ran.1)).
  pose proof (failed_clean (path f) outputPath message before (ran.1)) as Hc.
  simpl in Hc. destruct Hc as (Hsent & Hin & Hout).
  repeat split; try assumption.
  - unfold failed; simpl. rewrite <- !app_assoc. reflexivity.
  - fold (quiet (before ++ [ConsoleError "Error processing audio:"]
                   ++ unlinks (path f) outputPath ran.1)).
    solve_quiet.
Qed.

(** C7: whenever the handler answers with status 200 for an upload of
    positive size, the sizes it reports are those of the input and output
    files, and the reported reduction is the number
    [(originalSize - newSize) / originalSize * 100], computed in binary64
    arithmetic, rounded to two decimals and followed by a percent sign. For
    1,000,000 and 750,000 bytes it is "25.00%". Sizes are those [fs.statSync]
    can report: integers from zero up to [2 ^ 53]. *)
Theorem C7_size_reduction_percent
    (f : File) (now : N) (fs : gmap string Z)
    (filename downloadUrl reported : string) (originalSize newSize : Z)
    (atSend : gmap string Z)
    (Hsent : sent (trim_silence ffprobe save outputDir (Some f) now (world0 fs)).1
             = Some (Success200 filename downloadUrl originalSize newSize
                                reported, atSend))
    (Hsize : 0 < originalSize < 2 ^ 53)
    (Hnew : 0 <= newSize < 2 ^ 53) :
  atSend !! path f = Some originalSize
  /\ atSend !! run_outputPath outputDir f now = Some newSize
  /\ reported = reduction originalSize newSize +:+ "%"
  /\ (exists s,
        reported = s +:+ "%"
        /\ rounded_to_2_decimals (reductionPercent originalSize newSize) s)
  /\ sizeReduction 1000000 750000 = "25.00%".
Proof.
  rewrite trim_silence_outcome in Hsent. unfold outcome in Hsent.
  rewrite outcome_ran in Hsent.
  fold (run_outputPath outputDir f now) in Hsent.
  set (ran := run_result ffprobe save outputDir f now fs) in *.
  assert (Hfacts : atSend !! path f = Some originalSize
                   /\ atSend !! run_outputPath outputDir f now = Some newSize
                   /\ reported = reduction originalSize newSize +:+ "%").
  { destruct (ran.2) as [err|]; [discriminate Hsent|].
    destruct (ran.1 !! run_outputPath outputDir f now) as [n|] eqn:Hout;
      [|discriminate Hsent].
    destruct (ran.1 !! path f) as [o|] eqn:Hin; [|discriminate Hsent].
    simpl in Hsent. injection Hsent as _ _ <- <- <- <-.
    repeat split; assumption || reflexivity. }
  destruct Hfacts as (Hin & Hout & Hrep).
  split; [exact Hin|]. split; [exact Hout|]. split; [exact Hrep|].
  split; [|apply StatsProps.reduction_quarter].
  exists (reduction originalSize newSize).
  split; [exact Hrep|apply StatsProps.reduction_rounded].
Qed.

End Run.

(** C5 at an upload in which ffprobe finds no audio stream and the
    transcoder succeeds. *)
Lemma C5_witness :
  sent (trim_silence ffprobe_no_audio save_ok "/srv/output" (Some sample_file)
          1700000000001 (world0 sample_fs)).1
  = Some (Success200 "trimmed-1700000000001.mp3"
                     "/api/download/trimmed-1700000000001.mp3"
                     1000000 750000 "25.00%",
          sample_fs_after).
Proof.
  assert (Hfail : getAudioMetadata (ffprobe_no_audio (path sample_file) sample_fs)
                  = inl NoAudioStream) by reflexivity.
  pose proof (C5_probe_failure_is_not_fatal ffprobe_no_audio save_ok
                "/srv/output" sample_file 1700000000001 sample_fs
                NoAudioStream Hfail) as H.
  destruct H as (_ & _ & H). vm_compute in H. vm_compute. exact H.
Defined.

(** C6 at a transcoder that fails after writing part of the output. *)
Lemma C6_witness :
  exists message atSend,
    sent (trim_silence ffprobe_192k save_partial "/srv/output"
            (Some sample_file) 1700000000001 (world0 sample_fs)).1
    = Some (Failure500 message, atSend)
    /\ atSend !! path sample_file = None
    /\ atSend !! sample_outputPath = None.
Proof.
  assert (Hfatal : is_Some (run_result ffprobe_192k save_partial "/srv/output"
                              sample_file 1700000000001 sample_fs).2
                   \/ (run_result ffprobe_192k save_partial "/srv/output"
                         sample_file 1700000000001 sample_fs).1
                       !! run_outputPath "/srv/output" sample_file 1700000000001
                      = None).
  { left. exists "ffmpeg exited with code 1". vm_compute. reflexivity. }
  destruct (C6_fatal_failure_cleans_up ffprobe_192k save_partial
              "/srv/output" sample_file 1700000000001 sample_fs Hfatal)
    as (message & atSend & earlier & Hsent & Hin & Hout & _).
  exists message, atSend. repeat split; assumption.
Defined.

(** C7 at a run that shrinks 1,000,000 bytes to 750,000. *)
Lemma C7_witness :
  exists s,
    "25.00%" = s +:+ "%"
    /\ rounded_to_2_decimals (reductionPercent 1000000 750000) s.
Proof.
  assert (Hsent : sent (trim_silence ffprobe_192k save_ok "/srv/output"
                          (Some sample_file) 1700000000001
                          (world0 sample_fs)).1
                  = Some (Success200 "trimmed-1700000000001.mp3"
                            "/api/download/trimmed-1700000000001.mp3"
                            1000000 750000 "25.00%", sample_fs_after))
    by (vm_compute; reflexivity).
  assert (Hsize : 0 < 1000000 < 2 ^ 53) by lia.
  assert (Hnew : 0 <= 750000 < 2 ^ 53) by lia.
  destruct (C7_size_reduction_percent ffprobe_192k save_ok "/srv/output"
              sample_file 1700000000001 sample_fs _ _ _ _ _ _
              Hsent Hsize Hnew)
    as (_ & _ & _ & Hrounded & _).
  exact Hrounded.
Defined.

End HandlerProps.

(** ** Requests of the same millisecond *)

Module CollisionProps.
Import Names Handler Samples.

(** C8 (the code against the claim): the stored name of an upload carries
    a random suffix, the name of an output file does not. Two uploads
    handled in the same millisecond are stored under different names but
    are given the same output path; the first request is answered with
    that file, and when the transcoder of the second then fails, the
    clean-up of the second deletes the output of the first. *)
Theorem C8_same_millisecond_outputs_collide :
  uploadFilename 1700000000000 111111111 (originalname upload_a)
  <> uploadFilename 1700000000000 222222222 (originalname upload_b)
  /\ run_outputPath "/srv/output" upload_a 1700000000000
     = "/srv/output/trimmed-1700000000000.mp3"
  /\ run_outputPath "/srv/output" upload_b 1700000000000
     = "/srv/output/trimmed-1700000000000.mp3"
  /\ sent (trim_silence ffprobe_192k save_ok "/srv/output" (Some upload_a)
             1700000000000 (world0 two_uploads)).1
     = Some (Success200 "trimmed-1700000000000.mp3"
                        "/api/download/trimmed-1700000000000.mp3"
                        1000000 750000 "25.00%",
             first_done)
  /\ first_done !! "/srv/output/trimmed-1700000000000.mp3" = Some 750000
  /\ files (trim_silence ffprobe_192k save_failing "/srv/output"
              (Some upload_b) 1700000000000 (world0 first_done)).1
     !! "/srv/output/trimmed-1700000000000.mp3" = None.
Proof.
  split.
  { intros H. vm_compute in H. discriminate H. }
  repeat split; vm_compute; reflexivity.
Qed.

End CollisionProps.

(** ** More on the command builder *)

Module CommandProps.
Import Js Probe Pipeline Table Samples.

Lemma targetBitrate_floor (metadata : option AudioMetadata) (t : Z) :
  targetBitrate metadata = Some t -> 32 <= t.
Proof.
  unfold targetBitrate. destruct metadata as [m|]; [|discriminate].
  destruct (bitrate m) as [[|b]|]; try discriminate.
  destruct (truthy_num (Some (Num b))); [|discriminate].
  intros [= <-]. lia.
Qed.

(** X1: whatever the paths and the metadata, a bitrate requested by
    [removeSilence] is at least 32 kbps, and at most 256 kbps when the
    output extension is [.ogg]. *)
Theorem X1_requested_bitrate_bounds
    (inputPath outputPath : string) (metadata : option AudioMetadata) (kbps : Z)
    (Hset : audioBitrate (removeSilence_command inputPath outputPath metadata).1
            = Some kbps) :
  32 <= kbps
  /\ (if String.eqb (toLowerCase (Path.extname outputPath)) ".ogg"
      then kbps <= 256 else True).
Proof.
  pose proof (SelectionProps.selection_table_code inputPath outputPath metadata)
    as Hsel.
  assert (Hbr : sel_bitrate (table_code (toLowerCase (Path.extname outputPath))
                                        (targetBitrate metadata)) = Some kbps).
  { rewrite <- Hsel. exact Hset. }
  clear Hsel Hset. revert Hbr.
  pose proof (targetBitrate_floor metadata) as Hfloor.
  unfold table_code, is_ext, existsb.
  generalize (toLowerCase (Path.extname outputPath)) as e. intros e.
  destruct (String.eqb_spec e ".ogg") as [->|_].
  - destruct (targetBitrate metadata) as [t|]; simpl; intros [= <-].
    specialize (Hfloor t eq_refl). lia.
  - destruct (targetBitrate metadata) as [t|];
      [specialize (Hfloor t eq_refl)|clear Hfloor];
      destruct (String.eqb e ".mp3"), (String.eqb e ".mpeg"),
               (String.eqb e ".m4a"), (String.eqb e ".mp4"),
               (String.eqb e ".wav");
      simpl; intros [= <-]; split; try exact I; lia.
Qed.

(** X1 at a 320000 bit/s source written to an [.ogg] path. *)
Lemma X1_witness : 32 <= 256 /\ 256 <= 256.
Proof.
  apply (X1_requested_bitrate_bounds "in.ogg" "/srv/output/trimmed-1.ogg"
           (Some (sample_metadata (Some (Num 320000)))) 256).
  reflexivity.
Defined.

(** X2: for a source of at least 32000 bit/s and an output extension other
    than [.ogg] and [.wav], the requested bitrate is the source bitrate
    rounded down to whole kbps: never above the source and less than
    1 kbps below it. *)
Theorem X2_bitrate_tracks_source
    (inputPath outputPath : string) (m : AudioMetadata) (b : Z)
    (Hb : bitrate m = Some (Num b)) (Hlarge : 32000 <= b)
    (Hext : is_ext (toLowerCase (Path.extname outputPath)) [".ogg"; ".wav"]
            = false) :
  exists kbps,
    audioBitrate (removeSilence_command inputPath outputPath (Some m)).1
    = Some kbps
    /\ 1000 * kbps <= b < 1000 * kbps + 1000.
Proof.
  assert (Hnz : b <> 0) by lia.
  pose proof (SelectionProps.targetBitrate_known m b Hb Hnz) as Ht.
  pose proof (SelectionProps.selection_table_code inputPath outputPath (Some m))
    as Hsel.
  rewrite Ht in Hsel. unfold targetKbps in *.
  exists (Z.max 32 (b / 1000)). split.
  - change (sel_bitrate
              (selection (removeSilence_command inputPath outputPath (Some m)).1)
            = Some (Z.max 32 (b / 1000))).
    rewrite Hsel. revert Hext. unfold table_code, is_ext, existsb.
    generalize (toLowerCase (Path.extname outputPath)) as e. intros e.
    destruct (String.eqb e ".mp3"), (String.eqb e ".mpeg"),
             (String.eqb e ".m4a"), (String.eqb e ".mp4"),
             (String.eqb e ".ogg"), (String.eqb e ".wav");
      simpl; intros H; try discriminate H; reflexivity.
  - pose proof (Z.div_mod b 1000 ltac:(lia)) as Hdm.
    pose proof (Z.mod_pos_bound b 1000 ltac:(lia)) as Hm.
    assert (32 <= b / 1000) by (apply Z.div_le_lower_bound; lia).
    lia.
Qed.

Lemma X2_witness :
  exists kbps,
    audioBitrate (removeSilence_command "in.m4a" "/srv/output/trimmed-1.M4A"
                    (Some (sample_metadata (Some (Num 191999))))).1
    = Some kbps
    /\ 1000 * kbps <= 191999 < 1000 * kbps + 1000.
Proof.
  apply (X2_bitrate_tracks_source "in.m4a" "/srv/output/trimmed-1.M4A"
           (sample_metadata (Some (Num 191999))) 191999).
  - reflexivity.
  - lia.
  - reflexivity.
Defined.

(** X3: every command reads the input path it was given, names one of the
    four encoders (it never leaves the codec to ffmpeg), and leaves the
    bitrate unset only for Vorbis and PCM. *)
Theorem X3_encoder_always_chosen :
  forall inputPath outputPath metadata,
    let c := (removeSilence_command inputPath outputPath metadata).1 in
    input c = inputPath
    /\ (exists codec, audioCodec c = Some codec
                      /\ In codec ["libmp3lame"; "aac"; "libvorbis"; "pcm_s16le"])
    /\ match audioBitrate c with
       | Some _ => True
       | None => audioCodec c = Some "libvorbis" \/ audioCodec c = Some "pcm_s16le"
       end.
Proof.
  intros inputPath outputPath metadata. unfold removeSilence_command.
  generalize (toLowerCase (Path.extname outputPath)) as e. intros e.
  destruct (targetBitrate metadata) as [t|];
    destruct (String.eqb e ".mp3"), (String.eqb e ".mpeg"),
             (String.eqb e ".m4a"), (String.eqb e ".mp4"),
             (String.eqb e ".ogg"), (String.eqb e ".wav");
    simpl; (split; [reflexivity|split; [eexists; split; [reflexivity|simpl; tauto]|tauto]]).
Qed.

End CommandProps.

(** ** More on the prober *)

Module ProbeExtras.
Import Js Probe Samples MoreSamples.

Lemma find_first_audio (before after : list Stream) (s : Stream) :
  Forall (fun x => is_audio x = false) before -> is_audio s = true ->
  List.find is_audio (before ++ s :: after) = Some s.
Proof.
  intros Hb Hs. induction Hb as [|x before Hx _ IH]; simpl.
  - rewrite Hs. reflexivity.
  - rewrite Hx. exact IH.
Qed.

(** X4: the probe reads the first stream of type audio only: streams that
    are not audio before it, and any streams after it, do not change the
    result. *)
Theorem X4_first_audio_stream_wins
    (before after : list Stream) (s : Stream) (fmt : option Format)
    (Hbefore : Forall (fun x => is_audio x = false) before)
    (Haudio : is_audio s = true) :
  getAudioMetadata (inr {| streams := before ++ s :: after; format := fmt |})
  = getAudioMetadata (inr {| streams := [s]; format := fmt |}).
Proof.
  unfold getAudioMetadata; simpl.
  rewrite (find_first_audio before after s Hbefore Haudio), Haudio.
  reflexivity.
Qed.

Lemma X4_witness :
  getAudioMetadata
    (inr {| streams := [video_stream; sample_stream (Str "192000");
                        sample_stream (Str "64000")];
            format := Some sample_format |})
  = getAudioMetadata
      (inr {| streams := [sample_stream (Str "192000")];
              format := Some sample_format |}).
Proof.
  apply (X4_first_audio_stream_wins [video_stream] [sample_stream (Str "64000")]
           (sample_stream (Str "192000")) (Some sample_format)).
  - repeat constructor.
  - reflexivity.
Defined.

Lemma floor_unsigned (x : spec_float) :
  Double.unsigned x ->
  match floor x with
  | Num b => 0 <= b
  | NaN => True
  end.
Proof.
  destruct x as [sz|si| |negative m e]; simpl; try (intros _; exact I || lia).
  intros ->. unfold Double.value. change 0 with (Qfloor 0).
  apply Qfloor_resp_le, DoubleProps.magnitude_not_negative.
Qed.

(** X5: when neither the stream nor the container gives a usable bitrate
    and size and duration are present with a finite positive duration and
    a numeric size, the resolved bitrate is the floor of the quotient as
    binary64 arithmetic gives it: the integer [b] with [b <= x < b + 1]
    for the double [x] nearest to [size * 8 / duration]; and it is not
    negative when the size is not. *)
Theorem X5_computed_bitrate_bounds
    (s : Stream) (f : Format) (sizeBytes : Z) (d : Q)
    (Hstream : parseable (bit_rate s) = false)
    (Hcontainer : parseable (format_bit_rate f) = false)
    (Hcomputable : computable f = true)
    (Hsize : parseInt (format_size f) = Num sizeBytes)
    (Hduration : parseFloat (format_duration f) = FNum d) :
  exists n,
    resolve_bitrate s (Some f) = Some n
    /\ floor_of_quotient sizeBytes d n
    /\ (0 <= sizeBytes -> forall b, n = Num b -> 0 <= b).
Proof.
  rewrite (ProbeProps.resolve_bitrate_computed s f Hstream Hcontainer
             Hcomputable), Hsize, Hduration.
  eexists. split; [reflexivity|].
  split; [apply ProbeProps.floor_times8_div_floor|].
  intros Hnonneg b Hb.
  cut (match floor_times8_div (Num sizeBytes) (FNum d) with
       | Num b' => 0 <= b'
       | NaN => True
       end); [rewrite Hb; trivial|].
  assert (Hd : Qle 0 d).
  { unfold computable in Hcomputable. rewrite Hduration in Hcomputable.
    apply andb_prop in Hcomputable as [_ Hgt]. simpl in Hgt.
    apply Bool.negb_true_iff in Hgt.
    apply Qlt_le_weak, Qnot_le_lt. intros Hle.
    apply Qle_bool_iff in Hle. congruence. }
  apply floor_unsigned, DoubleProps.div_unsigned;
    [apply DoubleProps.mul_unsigned; apply DoubleProps.of_Z_unsigned; lia|].
  apply DoubleProps.of_Q_unsigned. exact Hd.
Qed.

Lemma X5_witness :
  exists n,
    resolve_bitrate (sample_stream Undefined) (Some sample_format) = Some n
    /\ floor_of_quotient 1000000 (125 # 2) n
    /\ (0 <= 1000000 -> forall b, n = Num b -> 0 <= b).
Proof.
  apply (X5_computed_bitrate_bounds (sample_stream Undefined) sample_format
           1000000 (125 # 2)); vm_compute; reflexivity.
Defined.

End ProbeExtras.

(** ** More on the upload handler *)

Module HandlerExtras.
Import Js Probe Pipeline Names Stats Handler Table Download Observe Samples.


Lemma tool_runs_logs (lines : list string) :
  tool_runs (ConsoleLog <$> lines) = [].
Proof. induction lines as [|l lines IH]; [reflexivity|exact IH]. Qed.

Lemma unlinked_logs (lines : list string) :
  unlinked (ConsoleLog <$> lines) = [].
Proof. induction lines as [|l lines IH]; [reflexivity|exact IH]. Qed.

Lemma timers_logs (lines : list string) :
  timers (ConsoleLog <$> lines) = [].
Proof. induction lines as [|l lines IH]; [reflexivity|exact IH]. Qed.

Lemma responses_unlinks (i o : string) (fs : gmap string Z) :
  responses (unlinks i o fs) = [].
Proof. unfold unlinks. repeat case_bool_decide; reflexivity. Qed.

Lemma tool_runs_unlinks (i o : string) (fs : gmap string Z) :
  tool_runs (unlinks i o fs) = [].
Proof. unfold unlinks. repeat case_bool_decide; reflexivity. Qed.

Lemma timers_unlinks (i o : string) (fs : gmap string Z) :
  timers (unlinks i o fs) = [].
Proof. unfold unlinks. repeat case_bool_decide; reflexivity. Qed.

Lemma responses_probe_line (p : ProbeError + AudioMetadata) :
  responses [probe_line p] = [].
Proof. destruct p; reflexivity. Qed.

Lemma tool_runs_probe_line (p : ProbeError + AudioMetadata) :
  tool_runs [probe_line p] = [].
Proof. destruct p; reflexivity. Qed.

Lemma unlinked_probe_line (p : ProbeError + AudioMetadata) :
  unlinked [probe_line p] = [].
Proof. destruct p; reflexivity. Qed.

Lemma timers_probe_line (p : ProbeError + AudioMetadata) :
  timers [probe_line p] = [].
Proof. destruct p; reflexivity. Qed.

Ltac read_trace :=
  unfold failed; cbn [trace files sent];
  unfold responses, tool_runs, unlinked, timers;
  rewrite ?omap_app; cbn [omap list_omap];
  fold responses tool_runs unlinked timers.

Section Run.

Variable ffprobe : string -> gmap string Z -> string + ProbeData.
Variable save : Command -> string -> gmap string Z
                -> gmap string Z * option string.
Variable outputDir : string.

Lemma run_outcome (f : File) (now : N) (fs : gmap string Z) :
  (trim_silence ffprobe save outputDir (Some f) now (world0 fs)).1
  = let inputPath := path f in
    let outputPath := run_outputPath outputDir f now in
    let probed := getAudioMetadata (ffprobe inputPath fs) in
    let built := removeSilence_command inputPath outputPath
                   (metadata_or_null probed) in
    let ran := run_result ffprobe save outputDir f now fs in
    let started :=
      [ConsoleLog ("Processing audio file: " +:+ originalname f);
       Ffprobe inputPath; probe_line probed]
      ++ (ConsoleLog <$> built.2)
      ++ [Save (run_command ffprobe outputDir f now fs) outputPath] in
    match ran.2 with
    | Some err =>
        failed inputPath outputPath
               (started ++ [ConsoleError "Error processing audio:"]) ran.1 err
    | None =>
        let finished := started ++ [ConsoleLog "Audio processing finished"] in
        match ran.1 !! outputPath, ran.1 !! inputPath with
        | None, _ =>
            failed inputPath outputPath finished ran.1
                   "Output file was not created"
        | Some _, None =>
            failed inputPath outputPath finished ran.1
                   ("ENOENT: no such file or directory, stat '"
                    +:+ inputPath +:+ "'")
        | Some newSize, Some originalSize =>
            let outputFilename := outputFilename now (originalname f) in
            let r := Success200 outputFilename
                                ("/api/download/" +:+ outputFilename)
                                originalSize newSize
                                (sizeReduction originalSize newSize) in
            {| files := ran.1;
               trace := finished ++ [Respond r; SetTimeoutUnlink inputPath 5000];
               sent := Some (r, ran.1) |}
        end
    end.
Proof. rewrite HandlerProps.trim_silence_outcome. reflexivity. Qed.


(** X7: a request with a file starts each external tool exactly once,
    the inspection of the input first and then the transcoder, on the
    command built from what the inspection returned. *)
Theorem X7_probe_then_transcode_once :
  forall (f : File) (now : N) (fs : gmap string Z),
    tool_runs (trace (trim_silence ffprobe save outputDir (Some f) now
                        (world0 fs)).1)
    = [Ffprobe (path f);
       Save (run_command ffprobe outputDir f now fs)
            (run_outputPath outputDir f now)].
Proof.
  intros f now fs. rewrite run_outcome. cbv zeta.
  destruct ((run_result ffprobe save outputDir f now fs).2) as [err|];
    [|destruct ((run_result ffprobe save outputDir f now fs).1
                !! run_outputPath outputDir f now),
               ((run_result ffprobe save outputDir f now fs).1 !! path f)];
    read_trace; rewrite tool_runs_logs, ?tool_runs_unlinks;
    destruct (getAudioMetadata (ffprobe (path f) fs)); reflexivity.
Qed.

(** X8: nothing is deleted before the transcoder has run: every [unlink]
    of the handler comes after the [Save] event, and only the input path
    and the output path are ever unlinked. *)
Theorem X8_no_unlink_before_transcode :
  forall (f : File) (now : N) (fs : gmap string Z),
    let w := (trim_silence ffprobe save outputDir (Some f) now (world0 fs)).1 in
    exists before after,
      trace w = before
                ++ Save (run_command ffprobe outputDir f now fs)
                        (run_outputPath outputDir f now) :: after
      /\ unlinked before = []
      /\ Forall (fun p => p = path f \/ p = run_outputPath outputDir f now)
                (unlinked after).
Proof.
  intros f now fs. cbv zeta. rewrite run_outcome. cbv zeta.
  set (probed := getAudioMetadata (ffprobe (path f) fs)).
  set (built := removeSilence_command _ _ _).
  exists ([ConsoleLog ("Processing audio file: " +:+ originalname f);
           Ffprobe (path f); probe_line probed] ++ (ConsoleLog <$> built.2)).
  assert (Hbefore : unlinked
            ([ConsoleLog ("Processing audio file: " +:+ originalname f);
              Ffprobe (path f); probe_line probed] ++ (ConsoleLog <$> built.2))
          = []).
  { unfold unlinked. rewrite omap_app. fold unlinked.
    rewrite unlinked_logs. destruct probed; reflexivity. }
  assert (Hunl : forall i o m,
             Forall (fun p => p = i \/ p = o) (unlinked (unlinks i o m))).
  { intros i o m. unfold unlinks.
    repeat case_bool_decide; cbn [unlinked omap list_omap app];
      repeat (constructor; [auto|]); constructor. }
  destruct ((run_result ffprobe save outputDir f now fs).2) as [err|];
    [|destruct ((run_result ffprobe save outputDir f now fs).1
                !! run_outputPath outputDir f now),
               ((run_result ffprobe save outputDir f now fs).1 !! path f)];
    eexists; (split; [cbn [trace failed]; rewrite <- ?app_assoc; reflexivity|]);
    (split; [exact Hbefore|]);
    unfold unlinked; rewrite ?omap_app; cbn [omap list_omap app];
    fold unlinked; rewrite ?app_nil_r; try apply Hunl; constructor.
Qed.

(** X9: a request answered with status 200 has deleted nothing: the file
    system is exactly what the transcoder left, and one timer is set,
    which unlinks the input path after 5000 ms. A request answered with
    an error sets no timer. *)
Theorem X9_success_deletes_nothing :
  forall (f : File) (now : N) (fs : gmap string Z),
    let w := (trim_silence ffprobe save outputDir (Some f) now (world0 fs)).1 in
    match sent w with
    | Some (Success200 _ _ _ _ _, _) =>
        files w = (run_result ffprobe save outputDir f now fs).1
        /\ unlinked (trace w) = []
        /\ timers (trace w) = [UnlinkAlways (path f) 5000]
    | _ => timers (trace w) = []
    end.
Proof.
  intros f now fs. cbv zeta. rewrite run_outcome. cbv zeta.
  destruct ((run_result ffprobe save outputDir f now fs).2) as [err|];
    [|destruct ((run_result ffprobe save outputDir f now fs).1
                !! run_outputPath outputDir f now),
               ((run_result ffprobe save outputDir f now fs).1 !! path f)];
    cbn [sent failed]; try split; try split; try reflexivity;
    read_trace;
    rewrite ?timers_logs, ?timers_unlinks, ?unlinked_logs;
    destruct (getAudioMetadata (ffprobe (path f) fs)); reflexivity.
Qed.

(** X10: the handler itself changes the file system at two paths only,
    its input path and its output path: at every other path the file
    system it leaves is the one the transcoder left. Nothing is said at
    the output path, which another request of the same millisecond and
    extension shares. *)
Theorem X10_only_own_artifacts_touched
    (f : File) (now : N) (fs : gmap string Z) (p : string)
    (Hin : p <> path f) (Hout : p <> run_outputPath outputDir f now) :
  files (trim_silence ffprobe save outputDir (Some f) now (world0 fs)).1 !! p
  = (run_result ffprobe save outputDir f now fs).1 !! p.
Proof.
  rewrite run_outcome. cbv zeta.
  destruct ((run_result ffprobe save outputDir f now fs).2) as [err|];
    [|destruct ((run_result ffprobe save outputDir f now fs).1
                !! run_outputPath outputDir f now),
               ((run_result ffprobe save outputDir f now fs).1 !! path f)];
    cbn [files failed]; try reflexivity;
    unfold cleaned; rewrite !lookup_delete_ne by congruence; reflexivity.
Qed.

Lemma success_facts (f : File) (now : N) (fs : gmap string Z)
    (filename url reported : string) (o n : Z) (atSend : gmap string Z) :
  sent (trim_silence ffprobe save outputDir (Some f) now (world0 fs)).1
  = Some (Success200 filename url o n reported, atSend) ->
  let w := (trim_silence ffprobe save outputDir (Some f) now (world0 fs)).1 in
  files w = atSend
  /\ atSend !! path f = Some o
  /\ atSend !! run_outputPath outputDir f now = Some n
  /\ filename = outputFilename now (originalname f)
  /\ url = "/api/download/" +:+ filename.
Proof.
  cbv zeta. rewrite run_outcome. cbv zeta.
  destruct ((run_result ffprobe save outputDir f now fs).2) as [err|];
    [discriminate|].
  destruct ((run_result ffprobe save outputDir f now fs).1
            !! run_outputPath outputDir f now) as [n'|] eqn:Hout;
    [|discriminate].
  destruct ((run_result ffprobe save outputDir f now fs).1 !! path f)
    as [o'|] eqn:Hin; [|discriminate].
  cbn [sent files]. intros [= <- <- <- <- _ <-].
  repeat split; assumption || reflexivity.
Qed.

(** X11: after a request answered with status 200, the download link of
    the response serves the output file and sets a guarded clean-up after
    1000 ms; the handler's own timer then removes the input without
    throwing, whichever of the two fires first; once both have fired
    neither artifact is left and the same link answers 404. *)
Theorem X11_download_then_cleanup
    (f : File) (now : N) (fs : gmap string Z)
    (filename url reported : string) (o n : Z) (atSend : gmap string Z)
    (transfer : string -> option string)
    (Hsent : sent (trim_silence ffprobe save outputDir (Some f) now
                     (world0 fs)).1
             = Some (Success200 filename url o n reported, atSend))
    (Hdirs : path f <> run_outputPath outputDir f now)
    (Htransfer : transfer (run_outputPath outputDir f now) = None) :
  let inputPath := path f in
  let outputPath := run_outputPath outputDir f now in
  let after := delete outputPath (delete inputPath atSend) in
  download outputDir filename transfer atSend
  = (FileSent outputPath, [UnlinkIfPresent outputPath 1000])
  /\ (fire (UnlinkAlways inputPath 5000) atSend = inr (delete inputPath atSend)
      /\ fire (UnlinkIfPresent outputPath 1000) (delete inputPath atSend)
         = inr after)
  /\ (fire (UnlinkIfPresent outputPath 1000) atSend = inr (delete outputPath atSend)
      /\ fire (UnlinkAlways inputPath 5000) (delete outputPath atSend)
         = inr after)
  /\ after !! inputPath = None
  /\ after !! outputPath = None
  /\ download outputDir filename transfer after = (NotFound404, []).
Proof.
  destruct (success_facts f now fs filename url reported o n atSend Hsent)
    as (_ & Hin & Hout & -> & _).
  cbv zeta. unfold download, fire.
  change (join outputDir (outputFilename now (originalname f)))
    with (run_outputPath outputDir f now).
  set (inputPath := path f) in *.
  set (outputPath := run_outputPath outputDir f now) in *.
  rewrite Hin, Hout, Htransfer.
  rewrite (lookup_delete_ne atSend outputPath inputPath) by congruence.
  rewrite (lookup_delete_ne atSend inputPath outputPath) by congruence.
  rewrite Hin, Hout, lookup_delete_eq.
  rewrite !bool_decide_eq_true_2 by (eexists; reflexivity).
  rewrite bool_decide_eq_false_2 by (intros [? H]; discriminate H).
  rewrite (delete_delete atSend inputPath outputPath).
  repeat split; try reflexivity.
  rewrite lookup_delete_ne by congruence. apply lookup_delete_eq.
Qed.



End Run.
Ltac distinct_paths := let H := fresh in intros H; vm_compute in H; discriminate H.

Lemma sample_run_sent :
  sent (trim_silence ffprobe_192k save_ok "/srv/output" (Some sample_file)
          1700000000001 (world0 sample_fs)).1
  = Some (Success200 "trimmed-1700000000001.mp3"
            "/api/download/trimmed-1700000000001.mp3"
            1000000 750000 "25.00%", sample_fs_after).
Proof. vm_compute. reflexivity. Qed.

(** X10 at a file of another request that sits in the output directory. *)
Lemma X10_witness :
  files (trim_silence ffprobe_192k save_partial "/srv/output"
           (Some sample_file) 1700000000001
           (world0 (<["/srv/output/trimmed-1600000000000.mp3" := 5]> sample_fs))).1
    !! "/srv/output/trimmed-1600000000000.mp3"
  = Some 5.
Proof.
  rewrite (X10_only_own_artifacts_touched ffprobe_192k save_partial
             "/srv/output" sample_file 1700000000001
             (<["/srv/output/trimmed-1600000000000.mp3" := 5]> sample_fs)
             "/srv/output/trimmed-1600000000000.mp3"
             ltac:(distinct_paths) ltac:(distinct_paths)).
  vm_compute. reflexivity.
Defined.

(** X11 at the sample run. *)
Lemma X11_witness :
  download "/srv/output" "trimmed-1700000000001.mp3" (fun _ => None)
           sample_fs_after
  = (FileSent sample_outputPath, [UnlinkIfPresent sample_outputPath 1000])
  /\ download "/srv/output" "trimmed-1700000000001.mp3" (fun _ => None)
       (delete sample_outputPath (delete (path sample_file) sample_fs_after))
     = (NotFound404, []).
Proof.
  destruct (X11_download_then_cleanup ffprobe_192k save_ok "/srv/output"
              sample_file 1700000000001 sample_fs _ _ _ _ _ _ (fun _ => None)
              sample_run_sent ltac:(distinct_paths) eq_refl)
    as (Hfirst & _ & _ & _ & _ & Hlast).
  split; [exact Hfirst|exact Hlast].
Defined.


End HandlerExtras.

(** ** Silence detection *)

Module DetectProps.
Import Js Detect MoreSamples.

Lemma starts_false (line : string) :
  starts line = false -> capture "silence_start: " line = None.
Proof.
  unfold starts. destruct (capture _ line); [|reflexivity].
  rewrite bool_decide_eq_true_2 by (eexists; reflexivity). discriminate.
Qed.

Lemma ends_false (line : string) :
  ends line = false -> capture "silence_end: " line = None.
Proof.
  unfold ends. destruct (capture _ line); [|reflexivity].
  rewrite bool_decide_eq_true_2 by (eexists; reflexivity). discriminate.
Qed.

Lemma starts_true (line : string) :
  starts line = true -> exists g, capture "silence_start: " line = Some g.
Proof.
  unfold starts. intros H. apply bool_decide_eq_true_1 in H as [g Hg].
  exists g. exact Hg.
Qed.

Lemma ends_true (line : string) :
  ends line = true -> exists g, capture "silence_end: " line = Some g.
Proof.
  unfold ends. intros H. apply bool_decide_eq_true_1 in H as [g Hg].
  exists g. exact Hg.
Qed.

Lemma on_stderr_noise (st : State) (line : string) :
  starts line = false -> ends line = false -> on_stderr st line = st.
Proof.
  intros Hs He. destruct st as [ps cur]. unfold on_stderr.
  rewrite (starts_false line Hs), (ends_false line He). reflexivity.
Qed.

Lemma run_stderr_filter (lines : list string) :
  forall st,
    run_stderr lines st
    = run_stderr (List.filter (fun l => starts l || ends l) lines) st.
Proof.
  unfold run_stderr.
  induction lines as [|l lines IH]; intros st; [reflexivity|].
  simpl. destruct (starts l) eqn:Hs; simpl.
  - apply IH.
  - destruct (ends l) eqn:He; simpl; [apply IH|].
    rewrite on_stderr_noise by assumption. apply IH.
Qed.

(** X13: only the lines that match one of the two patterns matter: the
    result of [detectSilence] is the same with every other line of
    ffmpeg's output removed. *)
Theorem X13_other_lines_are_ignored :
  forall (lines : list string) (err : option string),
    detectSilence lines err
    = detectSilence (List.filter (fun l => starts l || ends l) lines) err.
Proof.
  intros lines [e|]; [reflexivity|].
  unfold detectSilence. rewrite run_stderr_filter. reflexivity.
Qed.

Lemma on_stderr_counts (st : State) (line : string) :
  (open_count (on_stderr st line)
   <= open_count st + if starts line then 1 else 0)%nat
  /\ (List.length (on_stderr st line).1
      <= List.length st.1 + if ends line then 1 else 0)%nat
  /\ (List.length st.1 <= List.length (on_stderr st line).1)%nat.
Proof.
  destruct st as [ps cur]. unfold on_stderr, open_count, starts, ends.
  destruct (capture "silence_start: " line) as [gs|],
           (capture "silence_end: " line) as [ge|], cur as [c|];
    repeat (rewrite bool_decide_eq_true_2 by (eexists; reflexivity));
    repeat (rewrite bool_decide_eq_false_2 by (intros [? H]; discriminate H));
    cbn [fst snd]; rewrite ?length_app; simpl; lia.
Qed.

Lemma run_stderr_counts (lines : list string) :
  forall st,
    (open_count (run_stderr lines st)
     <= open_count st + List.length (List.filter starts lines))%nat
    /\ (List.length (run_stderr lines st).1
        <= List.length st.1 + List.length (List.filter ends lines))%nat.
Proof.
  unfold run_stderr.
  induction lines as [|l lines IH]; intros st; simpl; [lia|].
  destruct (IH (on_stderr st l)) as [H1 H2].
  destruct (on_stderr_counts st l) as (H3 & H4 & _).
  destruct (starts l), (ends l); simpl; lia.
Qed.

(** X14: [detectSilence] never reports more periods than there are lines
    with a silence start, nor more than there are lines with a silence
    end. *)
Theorem X14_periods_bounded_by_markers
    (lines : list string) (periods : list SilencePeriod)
    (Hdone : detectSilence lines None = inr periods) :
  (List.length periods <= List.length (List.filter starts lines))%nat
  /\ (List.length periods <= List.length (List.filter ends lines))%nat.
Proof.
  injection Hdone as <-.
  destruct (run_stderr_counts lines ([], None)) as [H1 H2].
  unfold open_count in H1. simpl in H1, H2.
  split; [|exact H2].
  destruct ((run_stderr lines ([], None)).2); lia.
Qed.

Lemma X14_witness :
  (2 <= List.length (List.filter starts stderr_sample))%nat
  /\ (2 <= List.length (List.filter ends stderr_sample))%nat.
Proof.
  apply (X14_periods_bounded_by_markers stderr_sample
           [period_of "silence_start: 1.5" "silence_end: 3.25";
            period_of "silence_start: 10" "silence_end: 12.5"]).
  vm_compute. reflexivity.
Defined.

Lemma run_stderr_pairs (pairs : list (string * string)) :
  Forall (fun ab => starts ab.1 = true /\ ends ab.1 = false
                    /\ starts ab.2 = false /\ ends ab.2 = true) pairs ->
  forall ps,
    run_stderr (flat_map (fun ab => [ab.1; ab.2]) pairs) (ps, None)
    = (ps ++ List.map (fun ab => period_of ab.1 ab.2) pairs, None).
Proof.
  unfold run_stderr.
  induction 1 as [|[a b] pairs (Hsa & Hea & Hsb & Heb) _ IH]; intros ps.
  - simpl. rewrite app_nil_r. reflexivity.
  - simpl in *. unfold on_stderr at 2.
    destruct (starts_true a Hsa) as [ga Hga].
    rewrite Hga, (ends_false a Hea).
    unfold on_stderr at 1.
    destruct (ends_true b Heb) as [gb Hgb].
    rewrite (starts_false b Hsb), Hgb.
    rewrite IH. unfold period_of. rewrite Hga, Hgb. simpl.
    rewrite <- app_assoc. reflexivity.
Qed.

(** X15: when ffmpeg's matching lines come in pairs, a line with a silence
    start followed by a line with a silence end, [detectSilence] reports
    one period per pair, in order, with the two times parsed from the two
    lines. *)
Theorem X15_paired_lines_give_periods
    (pairs : list (string * string))
    (Hpairs : Forall (fun ab => starts ab.1 = true /\ ends ab.1 = false
                                /\ starts ab.2 = false /\ ends ab.2 = true)
                     pairs) :
  detectSilence (flat_map (fun ab => [ab.1; ab.2]) pairs) None
  = inr (List.map (fun ab => period_of ab.1 ab.2) pairs).
Proof.
  unfold detectSilence. rewrite (run_stderr_pairs pairs Hpairs []).
  reflexivity.
Qed.

Lemma X15_witness :
  detectSilence
    ["[silencedetect @ 0x55d0c8] silence_start: 1.5";
     "[silencedetect @ 0x55d0c8] silence_end: 3.25 | silence_duration: 1.75"]
    None
  = inr [{| period_start := FNum (3 # 2); period_end := FNum (13 # 4) |}].
Proof.
  apply (X15_paired_lines_give_periods
           [("[silencedetect @ 0x55d0c8] silence_start: 1.5",
             "[silencedetect @ 0x55d0c8] silence_end: 3.25 | silence_duration: 1.75")]).
  repeat constructor.
Defined.

Lemma run_stderr_app (l1 l2 : list string) (st : State) :
  run_stderr (l1 ++ l2) st = run_stderr l2 (run_stderr l1 st).
Proof. unfold run_stderr. apply fold_left_app. Qed.

(** X16: a silence that is still open when ffmpeg ends is not reported,
    and a silence end that comes before any silence start is ignored. *)
Theorem X16_unpaired_markers_are_dropped
    (lines : list string) (first last : string)
    (Hfirst : starts first = false) (Hlast : ends last = false) :
  detectSilence (first :: lines ++ [last]) None = detectSilence lines None.
Proof.
  unfold detectSilence. f_equal.
  change (first :: lines ++ [last]) with ([first] ++ lines ++ [last]).
  rewrite !run_stderr_app.
  assert (H1 : run_stderr [first] ([], None) = ([], None)).
  { unfold run_stderr, on_stderr; simpl.
    rewrite (starts_false first Hfirst).
    destruct (capture "silence_end: " first); reflexivity. }
  rewrite H1. destruct (run_stderr lines ([], None)) as [ps cur].
  unfold run_stderr, on_stderr; simpl.
  rewrite (ends_false last Hlast).
  destruct (capture "silence_start: " last); reflexivity.
Qed.

Lemma X16_witness :
  detectSilence
    ("[silencedetect @ 0x55d0c8] silence_end: 0.4 | silence_duration: 0.4"
     :: ["[silencedetect @ 0x55d0c8] silence_start: 1.5";
         "[silencedetect @ 0x55d0c8] silence_end: 3.25 | silence_duration: 1.75"]
     ++ ["[silencedetect @ 0x55d0c8] silence_start: 20.75"]) None
  = detectSilence
      ["[silencedetect @ 0x55d0c8] silence_start: 1.5";
       "[silencedetect @ 0x55d0c8] silence_end: 3.25 | silence_duration: 1.75"]
      None.
Proof.
  apply X16_unpaired_markers_are_dropped; reflexivity.
Defined.

Lemma all_class_take (s : string) : all_class (take_class s) = true.
Proof.
  induction s as [|c s IH]; [reflexivity|]. simpl.
  destruct (in_class c) eqn:Hc; [|reflexivity]. simpl. rewrite Hc. exact IH.
Qed.

Lemma capture_class (literal line group : string) :
  capture literal line = Some group -> all_class group = true.
Proof.
  induction line as [|c line IH]; [discriminate|].
  cbn [capture].
  destruct (String.prefix literal (String c line)); [|exact IH].
  pose proof (all_class_take (skip (String.length literal) (String c line)))
    as Hall.
  destruct (take_class (skip (String.length literal) (String c line)));
    [exact IH|].
  intros [= <-]. exact Hall.
Qed.

Lemma class_char_plain (c : ascii) :
  in_class c = true ->
  is_space c = false /\ c <> "-"%char /\ c <> "+"%char /\ c <> "I"%char.
Proof.
  destruct c as [[] [] [] [] [] [] [] []]; try discriminate;
    intros _; repeat split; discriminate.
Qed.

Lemma read_sign_none (c : ascii) (s : string) :
  c <> "-"%char -> c <> "+"%char -> read_sign (String c s) = (1, String c s).
Proof.
  intros Hm Hp.
  destruct c as [[] [] [] [] [] [] [] []]; try reflexivity; congruence.
Qed.

Lemma digit_value_10 (c : ascii) (d : Z) :
  digit_value 10 c = Some d -> 0 <= d.
Proof.
  unfold digit_value.
  destruct (_ && _)%bool eqn:H; [|discriminate].
  intros [= <-]. apply andb_prop in H as [H _]. lia.
Qed.

Lemma read_digits_not_negative (s : string) :
  forall acc count v n rest,
    0 <= acc -> read_digits 10 s acc count = (v, n, rest) -> 0 <= v.
Proof.
  induction s as [|c s IH]; intros acc count v n rest Hacc; simpl.
  - intros [= <- _ _]. exact Hacc.
  - destruct (digit_value 10 c) as [d|] eqn:Hd.
    + apply IH. pose proof (digit_value_10 c d Hd). lia.
    + intros [= <- _ _]. exact Hacc.
Qed.

Lemma to_fnumber_not_negative (x : spec_float) :
  Double.unsigned x -> not_negative (to_fnumber x).
Proof.
  destruct x as [sz|si| |negative m e]; simpl; intros H;
    try exact H; try exact I; try discriminate.
  subst negative. rewrite Qred_correct.
  apply DoubleProps.magnitude_not_negative.
Qed.

Lemma parseFloat_class (group : string) :
  all_class group = true -> not_negative (parseFloat_string group).
Proof.
  destruct group as [|c g]; [intros _; exact I|].
  intros Hall. simpl in Hall. apply andb_prop in Hall as [Hc _].
  destruct (class_char_plain c Hc) as (Hsp & Hm & Hp & HI).
  unfold parseFloat_string. cbn [trim_start]. rewrite Hsp.
  rewrite (read_sign_none c g Hm Hp).
  assert (Hinf : String.prefix "Infinity" (String c g) = false).
  { cbn [String.prefix]. destruct (ascii_dec "I" c); [congruence|reflexivity]. }
  rewrite Hinf.
  destruct (read_digits 10 (String c g) 0 0) as [[ip icount] s2] eqn:Hi.
  assert (Hip : 0 <= ip)
    by (eapply read_digits_not_negative; [|exact Hi]; lia).
  assert (Hfrac : forall fp fcount x,
             0 <= fp ->
             not_negative
               match icount, fcount with
               | O, O => FNaN
               | _, _ =>
                   to_fnumber
                     (Double.of_decimal (1 * (ip * 10 ^ Z.of_nat fcount + fp)) x)
               end).
  { intros fp fcount x Hfp.
    assert (Hv : not_negative
                   (to_fnumber
                      (Double.of_decimal
                         (1 * (ip * 10 ^ Z.of_nat fcount + fp)) x))).
    { apply to_fnumber_not_negative, DoubleProps.of_decimal_unsigned.
      pose proof (Z.pow_nonneg 10 (Z.of_nat fcount)). nia. }
    destruct icount, fcount; try exact I; exact Hv. }
  destruct s2 as [|c2 r].
  - apply (Hfrac 0 O). lia.
  - destruct (Ascii.eqb_spec c2 ".") as [->|Hne].
    + destruct (read_digits 10 r 0 0) as [[fp fcount] s3] eqn:Hf.
      apply (Hfrac fp fcount).
      eapply read_digits_not_negative; [|exact Hf]. lia.
    + assert (Hsame : match String c2 r with
                      | String "." r0 => read_digits 10 r0 0 0
                      | _ => (0, O, String c2 r)
                      end = (0, O, String c2 r)).
      { destruct c2 as [[] [] [] [] [] [] [] []]; try reflexivity; congruence. }
      rewrite Hsame. apply (Hfrac 0 O). lia.
Qed.

Lemma on_stderr_not_negative (st : State) (line : string) :
  Forall period_not_negative st.1 ->
  from_option not_negative True st.2 ->
  Forall period_not_negative (on_stderr st line).1
  /\ from_option not_negative True (on_stderr st line).2.
Proof.
  destruct st as [ps cur]. simpl. intros Hps Hcur. unfold on_stderr.
  destruct (capture "silence_start: " line) as [gs|] eqn:Hs;
    destruct (capture "silence_end: " line) as [ge|] eqn:He;
    try destruct cur as [c|]; simpl; repeat split; try assumption;
    try exact I;
    try (apply Forall_app; split; [assumption|]; repeat constructor; simpl);
    try (apply parseFloat_class; eapply capture_class; eassumption);
    assumption.
Qed.

(** X17: no time [detectSilence] reports is negative: each is [NaN], a
    finite number from zero up, or [Infinity] (for a run of digits too
    large for a double). The patterns capture digits and dots only, so a
    sign in ffmpeg's output is never read. *)
Theorem X17_reported_times_not_negative :
  forall (lines : list string) (err : option string),
    match detectSilence lines err with
    | inr periods => Forall period_not_negative periods
    | inl e => err = Some e
    end.
Proof.
  intros lines [e|]; [reflexivity|]. simpl.
  assert (H : forall st,
             Forall period_not_negative st.1 ->
             from_option not_negative True st.2 ->
             Forall period_not_negative (run_stderr lines st).1).
  { unfold run_stderr. induction lines as [|l lines IH]; intros st Hps Hcur.
    - exact Hps.
    - simpl. destruct (on_stderr_not_negative st l Hps Hcur) as [H1 H2].
      apply IH; assumption. }
  apply H; [constructor|exact I].
Qed.

(** A one followed by 309 zeros is read as [Infinity]; with 308 zeros it
    is still a finite number. *)
Example long_run_is_infinite :
  all_class (String "1" (zeros 309)) = true
  /\ parseFloat_string (String "1" (zeros 309)) = FInfinity false
  /\ exists q, parseFloat_string (String "1" (zeros 308)) = FNum q.
Proof.
  split; [vm_compute; reflexivity|]. split; [vm_compute; reflexivity|].
  eexists. vm_compute. reflexivity.
Qed.

Example negative_start_is_missed :
  detectSilence
    ["[silencedetect @ 0x55d0c8] silence_start: -0.0213";
     "[silencedetect @ 0x55d0c8] silence_end: 3.25 | silence_duration: 3.27"]
    None
  = inr [].
Proof. reflexivity. Qed.

End DetectProps.

(** ** Upload validation *)

Module UploadProps.
Import Js Upload.

(** X18: the file filter accepts a MIME type only if it is one of the
    eleven listed ones, compared exactly: an accepted type starts with
    [audio/] and is written in lower case, so a type spelled with a
    capital letter is rejected. *)
Theorem X18_accepted_types_are_listed_audio
    (mimetype : string) (Haccepted : fileFilter mimetype = inr true) :
  In mimetype allowedMimes
  /\ String.prefix "audio/" mimetype = true
  /\ toLowerCase mimetype = mimetype.
Proof.
  unfold fileFilter, includes in Haccepted.
  destruct (existsb (String.eqb mimetype) allowedMimes) eqn:Hin;
    [|discriminate Haccepted].
  apply existsb_exists in Hin as (x & Hx & Heq).
  apply String.eqb_eq in Heq. subst x.
  split; [exact Hx|].
  unfold allowedMimes in Hx. simpl in Hx.
  repeat (destruct Hx as [<-|Hx]; [split; reflexivity|]).
  destruct Hx.
Qed.

Lemma X18_witness :
  In "audio/x-wav" allowedMimes
  /\ String.prefix "audio/" "audio/x-wav" = true
  /\ toLowerCase "audio/x-wav" = "audio/x-wav".
Proof.
  apply (X18_accepted_types_are_listed_audio "audio/x-wav"). reflexivity.
Defined.

Example rejected_types :
  fileFilter "Audio/MPEG"
  = inl "Invalid file type. Only audio files are allowed."
  /\ fileFilter "audio/x-m4a"
     = inl "Invalid file type. Only audio files are allowed."
  /\ fileFilter "video/mp4"
     = inl "Invalid file type. Only audio files are allowed.".
Proof. repeat split; reflexivity. Qed.

End UploadProps.

(** ** The legacy handler *)

Module LegacyProps.
Import Js Probe Pipeline Names Stats Handler Table Observe Samples.

#[local] Existing Instances M_ret M_bind.

Section Run.

Variable save : Command -> string -> gmap string Z
                -> gmap string Z * option string.
Variable outputDir : string.

Lemma legacy_removeSilence_run (inputPath outputPath : string)
    (before : list Event) (fs : gmap string Z) :
  Legacy.removeSilence save inputPath outputPath
    {| files := fs; trace := before; sent := None |}
  = let command := legacy_removeSilence_command inputPath outputPath in
    let ran := save command outputPath fs in
    let tr := before ++ [Save command outputPath] in
    match ran.2 with
    | None =>
        ({| files := ran.1;
            trace := tr ++ [ConsoleLog "Audio processing finished"];
            sent := None |}, inr tt)
    | Some err =>
        ({| files := ran.1;
            trace := tr ++ [ConsoleError "Error processing audio:"];
            sent := None |}, inl err)
    end.
Proof.
  unfold Legacy.removeSilence. cbv zeta. simpl.
  destruct (save (legacy_removeSilence_command inputPath outputPath)
                 outputPath fs) as [fs' [err|]]; reflexivity.
Qed.

Lemma legacy_outcome (f : File) (now : N) (fs : gmap string Z) :
  (Legacy.trim_silence save outputDir (Some f) now (world0 fs)).1
  = let inputPath := path f in
    let outputFilename := outputFilename now (originalname f) in
    let outputPath := join outputDir outputFilename in
    let command := legacy_removeSilence_command inputPath outputPath in
    let ran := save command outputPath fs in
    let started :=
      [ConsoleLog ("Processing audio file: " +:+ originalname f);
       Save command outputPath] in
    match ran.2 with
    | Some err =>
        failed inputPath outputPath
               (started ++ [ConsoleError "Error processing audio:"]) ran.1 err
    | None =>
        let finished := started ++ [ConsoleLog "Audio processing finished"] in
        match ran.1 !! outputPath, ran.1 !! inputPath with
        | None, _ =>
            failed inputPath outputPath finished ran.1
                   "Output file was not created"
        | Some _, None =>
            failed inputPath outputPath finished ran.1
                   ("ENOENT: no such file or directory, stat '"
                    +:+ inputPath +:+ "'")
        | Some newSize, Some originalSize =>
            let r := Success200 outputFilename
                                ("/api/download/" +:+ outputFilename)
                                originalSize newSize
                                (sizeReduction originalSize newSize) in
            {| files := ran.1;
               trace := finished ++ [Respond r; SetTimeoutUnlink inputPath 5000];
               sent := Some (r, ran.1) |}
        end
    end.
Proof.
  unfold Legacy.trim_silence, try_catch. cbv zeta.
  set (inputPath := path f).
  set (outputPath := join outputDir (outputFilename now (originalname f))).
  unfold mbind at 1 2. unfold M_bind at 1 2. unfold emit at 1. simpl.
  rewrite legacy_removeSilence_run. cbv zeta.
  destruct (save (legacy_removeSilence_command inputPath outputPath)
                 outputPath fs) as [fs' [err|]]; simpl.
  - rewrite HandlerProps.on_error_run. reflexivity.
  - unfold mbind at 1 2; unfold M_bind at 1 2; unfold existsSync at 1; simpl.
    destruct (fs' !! outputPath) as [newSize|] eqn:Hout.
    + rewrite bool_decide_eq_true_2 by (eexists; reflexivity); simpl.
      unfold mbind at 1 2; unfold M_bind at 1 2; unfold statSync_size at 1;
        simpl; rewrite Hout.
      unfold statSync_size at 1; simpl.
      destruct (fs' !! inputPath) as [originalSize|] eqn:Hin; simpl.
      * unfold sizeReduction. reflexivity.
      * rewrite HandlerProps.on_error_run. reflexivity.
    + rewrite bool_decide_eq_false_2 by (intros [? ?]; discriminate); simpl.
      rewrite HandlerProps.on_error_run. reflexivity.
Qed.

(** X19: the legacy handler never inspects the upload: the only tool it
    starts is the transcoder, once, on the fixed legacy command. It sends
    exactly one response, and whenever that response is not a 200 neither
    the input nor the output path exists when it is sent. *)
Theorem X19_legacy_handler_run :
  forall (f : File) (now : N) (fs : gmap string Z),
    let inputPath := path f in
    let outputPath := join outputDir (outputFilename now (originalname f)) in
    let w := (Legacy.trim_silence save outputDir (Some f) now (world0 fs)).1 in
    tool_runs (trace w)
    = [Save (legacy_removeSilence_command inputPath outputPath) outputPath]
    /\ exists r,
        responses (trace w) = [r]
        /\ sent w = Some (r, files w)
        /\ (status r = 200
            \/ (status r = 500 /\ files w !! inputPath = None
                /\ files w !! outputPath = None)).
Proof.
  intros f now fs. cbv zeta. rewrite legacy_outcome. cbv zeta.
  set (inputPath := path f).
  set (outputPath := join outputDir (outputFilename now (originalname f))).
  set (ran := save _ outputPath fs).
  assert (Hclean : forall before message,
             files (failed inputPath outputPath before ran.1 message)
               !! inputPath = None
             /\ files (failed inputPath outputPath before ran.1 message)
                  !! outputPath = None).
  { intros before message.
    destruct (HandlerProps.failed_clean inputPath outputPath message before
                ran.1) as (_ & H1 & H2).
    split; assumption. }
  destruct (ran.2) as [err|];
    [|destruct (ran.1 !! outputPath), (ran.1 !! inputPath)].
  all: split;
    [HandlerExtras.read_trace; rewrite ?HandlerExtras.tool_runs_unlinks;
     reflexivity|].
  all: eexists; split;
    [HandlerExtras.read_trace; rewrite ?HandlerExtras.responses_unlinks;
     reflexivity|].
  all: split; [reflexivity|].
  all: first [left; reflexivity | right; split; [reflexivity|apply Hclean]].
Qed.

End Run.
End LegacyProps.

(** ** Extensions and generated names *)

Module PathShapeProps.
Import Path Names PathShape.

Lemma plain_at_here (chars : list ascii) (i : Z) (code : ascii) :
  chars !! Z.to_nat i = Some code -> plain code = true -> plain_at chars i.
Proof. intros Hc Hp c Hl. rewrite Hc in Hl. injection Hl as <-. exact Hp. Qed.

Lemma plain_at_extend (chars : list ascii) (i e : Z) (code : ascii) :
  0 <= i ->
  chars !! Z.to_nat i = Some code -> plain code = true ->
  (forall k, i < k < e -> plain_at chars k) ->
  forall k, i - 1 < k < e -> plain_at chars k.
Proof.
  intros Hi Hc Hp Hk k Hr. destruct (Z.eq_dec k i) as [->|Hne].
  - exact (plain_at_here chars i code Hc Hp).
  - apply Hk. lia.
Qed.

Lemma plain_char (code : ascii) :
  code <> "/"%char -> code <> "."%char -> plain code = true.
Proof.
  intros H1 H2. unfold plain.
  destruct (Ascii.eqb_spec code "/"); [contradiction|].
  destruct (Ascii.eqb_spec code "."); [contradiction|]. reflexivity.
Qed.

Lemma scan_shape_step (chars : list ascii) (i : Z) (st : scan) (code : ascii) :
  0 <= i < Z.of_nat (List.length chars) ->
  chars !! Z.to_nat i = Some code ->
  code <> "/"%char ->
  scan_shape chars i st ->
  scan_shape chars (i - 1)
    (let st1 :=
       if end_ st =? -1
       then Scan (startDot st) (startPart st) (i + 1) false (preDotState st)
       else st in
     if Ascii.eqb code "." then
       if startDot st1 =? -1 then
         Scan i (startPart st1) (end_ st1) (matchedSlash st1) (preDotState st1)
       else if negb (preDotState st1 =? 1) then
         Scan (startDot st1) (startPart st1) (end_ st1) (matchedSlash st1) 1
       else st1
     else if negb (startDot st1 =? -1) then
       Scan (startDot st1) (startPart st1) (end_ st1) (matchedSlash st1) (-1)
     else st1).
Proof.
  intros Hi Hcode Hslash [Hnone Hsome]. cbv zeta.
  destruct (Z.eqb_spec (end_ st) (-1)) as [He|He].
  - destruct (Hnone He) as [Hsd _].
    cbn [startDot end_ matchedSlash preDotState startPart].
    rewrite Hsd. cbn [Z.eqb Pos.eqb negb].
    destruct (Ascii.eqb_spec code ".") as [Hd|Hd].
    + subst code. split; cbn [startDot end_ matchedSlash];
        repeat split; intros;
        first [lia | assumption | reflexivity | contradiction].
    + split; cbn [startDot end_ matchedSlash];
        repeat split; intros;
        first [ lia | assumption | reflexivity | contradiction
              | assert (k = i) as -> by lia;
                exact (plain_at_here chars i code Hcode
                         (plain_char code Hslash Hd)) ].
  - destruct (Hsome He) as (Hms & Hb & Hno & Hyes).
    destruct (Z.eqb_spec (startDot st) (-1)) as [Hsd|Hsd].
    + destruct (Ascii.eqb_spec code ".") as [Hd|Hd]; cbn [negb].
      * subst code. split; cbn [startDot end_ matchedSlash];
          repeat split; intros;
          first [ lia | assumption | reflexivity | contradiction
                | apply (Hno Hsd); lia ].
      * split; repeat split; intros;
          first [ lia | assumption | reflexivity | contradiction
                | apply (plain_at_extend chars i (end_ st) code);
                  first [ lia | assumption
                        | exact (plain_char code Hslash Hd)
                        | exact (Hno Hsd) ] ].
    + destruct (Hyes Hsd) as (Hr & Hdot & Hpl).
      assert (Hgoal : forall p,
                 scan_shape chars (i - 1)
                   (Scan (startDot st) (startPart st) (end_ st)
                         (matchedSlash st) p)).
      { intros p. split; cbn [startDot end_ matchedSlash];
          repeat split; intros;
          first [ lia | assumption | reflexivity | contradiction
                | apply Hpl; lia ]. }
      destruct (Ascii.eqb_spec code "."); cbn [negb].
      * destruct (negb (preDotState st =? 1)); [apply Hgoal|].
        destruct st; apply Hgoal.
      * apply Hgoal.
Qed.

Lemma scan_shape_loop (rs : list ascii) :
  forall (suffix : list ascii) (i : Z) (st : scan),
    i + 1 = Z.of_nat (List.length rs) ->
    scan_shape (rev rs ++ suffix) i st ->
    exists j, -1 <= j
              /\ scan_shape (rev rs ++ suffix) j (extname_loop rs i st).
Proof.
  induction rs as [|code rs IH]; intros suffix i st Hi Hinv.
  - exists i. simpl in *. split; [lia|exact Hinv].
  - assert (Hcode : (rev (code :: rs) ++ suffix) !! Z.to_nat i = Some code).
    { simpl. rewrite <- app_assoc. simpl.
      replace (Z.to_nat i) with (List.length (rev rs))
        by (rewrite length_rev; simpl in Hi; lia).
      apply list_lookup_middle. reflexivity. }
    assert (Hi0 : 0 <= i < Z.of_nat (List.length (rev (code :: rs) ++ suffix))).
    { rewrite length_app, length_rev. simpl in *. lia. }
    assert (Hnext : forall st',
              scan_shape (rev (code :: rs) ++ suffix) (i - 1) st' ->
              exists j, -1 <= j
                /\ scan_shape (rev (code :: rs) ++ suffix) j
                     (extname_loop rs (i - 1) st')).
    { intros st' H'. simpl. rewrite <- app_assoc. simpl.
      apply IH; [simpl in Hi; lia|].
      simpl in H'. rewrite <- app_assoc in H'. exact H'. }
    cbn [extname_loop].
    destruct (Ascii.eqb_spec code "/") as [Hslash|Hslash].
    + destruct (matchedSlash st) eqn:Hms; cbn [negb].
      * apply Hnext. destruct Hinv as [Hnone Hsome].
        destruct (Z.eq_dec (end_ st) (-1)) as [He|He].
        -- split; [exact Hnone|intros Habs; contradiction].
        -- destruct (Hsome He) as (Hfalse & _). congruence.
      * exists i. split; [lia|].
        destruct Hinv as [Hnone Hsome].
        split; cbn [startDot end_ matchedSlash].
        -- intros He. destruct (Hnone He) as [_ Habs]. congruence.
        -- intros He. destruct (Hsome He) as (Hf & Hb & Hno & Hyes).
           split; [first [exact Hf|reflexivity]|]. split; [exact Hb|].
           split; assumption.
    + apply Hnext. apply scan_shape_step; assumption.
Qed.

Lemma substring_cons (s : string) :
  forall (n m : nat) (c : ascii),
    list_ascii_of_string s !! n = Some c ->
    String.substring n (S m) s = String c (String.substring (S n) m s).
Proof.
  induction s as [|a s IH]; intros [|n] m c H; simpl in *; try discriminate.
  - injection H as ->. destruct s, m; reflexivity.
  - rewrite (IH n m c H). reflexivity.
Qed.

Lemma all_plain_substring (s : string) :
  forall n m : nat,
    (forall k c, (n <= k < n + m)%nat ->
                 list_ascii_of_string s !! k = Some c -> plain c = true) ->
    all_plain (String.substring n m s) = true.
Proof.
  induction s as [|a s IH]; intros [|n] [|m] H; simpl; try reflexivity.
  - rewrite (H 0%nat a) by (simpl; first [lia|reflexivity]). simpl.
    apply IH. intros k c Hk Hc. apply (H (S k) c); [lia|exact Hc].
  - apply IH. intros k c Hk Hc. apply (H (S k) c); [lia|exact Hc].
  - apply IH. intros k c Hk Hc. apply (H (S k) c); [lia|exact Hc].
Qed.

(** The extension [path.extname] returns is empty, or a dot followed by
    characters that are neither dots nor separators. *)
Lemma extname_shape (p : string) : ext_shape (extname p) = true.
Proof.
  unfold extname.
  set (chars := list_ascii_of_string p).
  set (st := extname_loop (rev chars) (Z.of_nat (List.length chars) - 1) scan0).
  assert (Hinv : exists j, -1 <= j /\ scan_shape chars j st).
  { pose proof (scan_shape_loop (rev chars) []
                  (Z.of_nat (List.length chars) - 1) scan0) as H.
    rewrite rev_involutive, app_nil_r in H. apply H.
    - rewrite length_rev. lia.
    - split; [intros _; split; reflexivity|intros Habs; contradiction]. }
  destruct (_ || _)%bool eqn:Hguard; [reflexivity|].
  destruct Hinv as (j & Hj & Hnone & Hsome).
  apply Bool.orb_false_iff in Hguard as [Hguard _].
  apply Bool.orb_false_iff in Hguard as [Hguard _].
  apply Bool.orb_false_iff in Hguard as [Hsd He].
  apply Z.eqb_neq in Hsd, He.
  destruct (Hsome He) as (_ & Hb & _ & Hyes).
  destruct (Hyes Hsd) as (Hr & Hdot & Hpl).
  replace (Z.to_nat (end_ st - startDot st))
    with (S (Z.to_nat (end_ st - startDot st - 1))) by lia.
  rewrite (substring_cons p _ _ "." Hdot). simpl.
  apply all_plain_substring. intros k c Hk Hc.
  apply (Hpl (Z.of_nat k)); [lia|].
  rewrite Nat2Z.id. exact Hc.
Qed.

Lemma list_ascii_app (a b : string) :
  list_ascii_of_string (a +:+ b)
  = list_ascii_of_string a ++ list_ascii_of_string b.
Proof.
  induction a as [|c a IH]; [reflexivity|].
  change (c :: list_ascii_of_string (a +:+ b)
          = c :: (list_ascii_of_string a ++ list_ascii_of_string b)).
  f_equal. exact IH.
Qed.

Lemma all_plain_Forall (s : string) :
  all_plain s = true ->
  Forall (fun c => plain c = true) (list_ascii_of_string s).
Proof.
  induction s as [|c s IH]; simpl; [constructor|].
  intros H. apply andb_prop in H as [Hc Hs]. constructor; auto.
Qed.

Lemma plain_step (c : ascii) (rest : list ascii) (i : Z) (st : scan) :
  plain c = true ->
  extname_loop (c :: rest) i st
  = extname_loop rest (i - 1) (after_plain i st).
Proof.
  unfold plain. intros H. apply andb_prop in H as [Hs Hd].
  apply Bool.negb_true_iff in Hs, Hd.
  cbn [extname_loop]. rewrite Hs, Hd. f_equal.
  unfold after_plain.
  destruct (end_ st =? -1); cbn [startDot end_ matchedSlash preDotState startPart];
    destruct (startDot st =? -1); cbn [negb]; try reflexivity.
  destruct st; reflexivity.
Qed.

Lemma after_plain_twice (i j : Z) (st : scan) :
  0 <= i -> after_plain j (after_plain i st) = after_plain i st.
Proof.
  intros Hi. unfold after_plain.
  cbn [startDot end_ matchedSlash preDotState startPart].
  assert (He : ((if end_ st =? -1 then i + 1 else end_ st) =? -1) = false).
  { destruct (Z.eqb_spec (end_ st) (-1)); apply Z.eqb_neq; lia. }
  rewrite He. destruct (startDot st =? -1); reflexivity.
Qed.

(** A run of plain characters read from index [i] downwards. *)
Lemma plain_run (rs : list ascii) :
  forall (rest : list ascii) (i : Z) (st : scan),
    Forall (fun c => plain c = true) rs -> rs <> [] ->
    Z.of_nat (List.length rs) <= i + 1 ->
    extname_loop (rs ++ rest) i st
    = extname_loop rest (i - Z.of_nat (List.length rs)) (after_plain i st).
Proof.
  induction rs as [|c rs IH]; intros rest i st Hall Hne Hlen; [contradiction|].
  apply Forall_cons in Hall as [Hc Hall].
  change ((c :: rs) ++ rest) with (c :: (rs ++ rest)).
  rewrite (plain_step c _ i st Hc).
  destruct rs as [|c' rs'].
  - simpl. first [reflexivity | f_equal; lia].
  - rewrite IH; [|exact Hall|discriminate|simpl in *; lia].
    rewrite after_plain_twice by (simpl in Hlen; lia).
    f_equal. simpl List.length. lia.
Qed.

Lemma dot_step (rest : list ascii) (i : Z) (st : scan) :
  startDot st = -1 ->
  extname_loop ("."%char :: rest) i st
  = extname_loop rest (i - 1)
      (Scan i (startPart st)
            (if end_ st =? -1 then i + 1 else end_ st)
            (if end_ st =? -1 then false else matchedSlash st)
            (preDotState st)).
Proof.
  intros Hsd. cbn [extname_loop]. simpl (Ascii.eqb _ _).
  destruct (end_ st =? -1);
    cbn [startDot end_ matchedSlash preDotState startPart];
    rewrite Hsd; reflexivity.
Qed.

(** What is left of the path once the last component has been read: it
    is empty or ends with a separator. *)
Lemma directory_part (lp : list ascii) (i : Z) (st : scan) :
  lp = [] \/ (exists ld, lp = ld ++ ["/"%char]) ->
  matchedSlash st = false ->
  let r := extname_loop (rev lp) i st in
  startDot r = startDot st /\ end_ r = end_ st
  /\ preDotState r = preDotState st.
Proof.
  intros [->|[ld ->]] Hms; [repeat split|].
  rewrite rev_app_distr. simpl. rewrite Hms. simpl. repeat split.
Qed.

Lemma loop_without_extension (lp ls : list ascii) :
  lp = [] \/ (exists ld, lp = ld ++ ["/"%char]) ->
  Forall (fun c => plain c = true) ls -> ls <> [] ->
  startDot (extname_loop (rev (lp ++ ls))
              (Z.of_nat (List.length (lp ++ ls)) - 1) scan0) = -1.
Proof.
  intros Hlp Hls Hne. rewrite rev_app_distr.
  rewrite plain_run.
  - destruct (directory_part lp
                (Z.of_nat (List.length (lp ++ ls)) - 1
                 - Z.of_nat (List.length (rev ls)))
                (after_plain (Z.of_nat (List.length (lp ++ ls)) - 1) scan0)
                Hlp eq_refl) as (H & _).
    exact H.
  - apply Forall_rev. exact Hls.
  - intros H. apply (f_equal (@rev ascii)) in H.
    rewrite rev_involutive in H. exact (Hne H).
  - rewrite length_rev, length_app. lia.
Qed.

Lemma loop_with_extension (lp ls lr : list ascii) :
  lp = [] \/ (exists ld, lp = ld ++ ["/"%char]) ->
  Forall (fun c => plain c = true) ls -> ls <> [] ->
  Forall (fun c => plain c = true) lr ->
  let chars := lp ++ ls ++ "."%char :: lr in
  let r := extname_loop (rev chars) (Z.of_nat (List.length chars) - 1) scan0 in
  startDot r = Z.of_nat (List.length (lp ++ ls))
  /\ end_ r = Z.of_nat (List.length chars)
  /\ preDotState r = -1.
Proof.
  intros Hlp Hls Hne Hlr chars r.
  assert (Hrev : rev chars = rev lr ++ "."%char :: (rev ls ++ rev lp)).
  { unfold chars. rewrite !rev_app_distr. simpl.
    rewrite <- !app_assoc. reflexivity. }
  assert (Hlen : Z.of_nat (List.length chars)
                 = Z.of_nat (List.length lp) + Z.of_nat (List.length ls)
                   + 1 + Z.of_nat (List.length lr)).
  { unfold chars. rewrite !length_app. simpl. lia. }
  assert (Hlsne : rev ls <> []).
  { intros H. apply (f_equal (@rev ascii)) in H.
    rewrite rev_involutive in H. exact (Hne H). }
  assert (Hlspos : 0 < Z.of_nat (List.length ls)).
  { destruct ls; [contradiction|simpl; lia]. }
  set (L := Z.of_nat (List.length chars)) in *.
  set (j := Z.of_nat (List.length (lp ++ ls))).
  assert (Hj : j = L - 1 - Z.of_nat (List.length lr)).
  { unfold j. rewrite length_app. lia. }
  assert (Hdot : extname_loop (rev lr ++ "."%char :: (rev ls ++ rev lp))
                   (L - 1) scan0
                 = extname_loop (rev ls ++ rev lp) (j - 1)
                     (Scan j 0 L false 0)).
  { destruct lr as [|c lr'].
    - simpl app. rewrite dot_step by reflexivity. simpl.
      replace (L - 1 + 1) with L by lia.
      replace j with (L - 1) by (simpl in Hj; lia). reflexivity.
    - rewrite plain_run;
        [|apply Forall_rev; exact Hlr
         |intros H; apply (f_equal (@List.length ascii)) in H;
          rewrite length_rev in H; discriminate H
         |rewrite length_rev; lia].
      rewrite length_rev, dot_step by reflexivity.
      unfold after_plain, scan0.
      cbn [startDot end_ matchedSlash preDotState startPart].
      simpl (-1 =? -1). cbv iota.
      replace (L - 1 + 1) with L by lia.
      assert (HL : (L =? -1) = false) by (apply Z.eqb_neq; lia).
      rewrite HL. rewrite <- Hj. reflexivity. }
  unfold r. rewrite Hrev, Hdot.
  rewrite plain_run;
    [|apply Forall_rev; exact Hls|exact Hlsne
     |rewrite length_rev; unfold j; rewrite length_app; lia].
  destruct (directory_part lp (j - 1 - Z.of_nat (List.length (rev ls)))
              (after_plain (j - 1) (Scan j 0 L false 0)) Hlp) as (H1 & H2 & H3).
  { unfold after_plain. cbn [end_ matchedSlash].
    destruct (L =? -1); reflexivity. }
  rewrite H1, H2, H3. unfold after_plain.
  cbn [startDot end_ matchedSlash preDotState startPart].
  assert (HL : (L =? -1) = false) by (apply Z.eqb_neq; lia).
  assert (Hjn : (j =? -1) = false) by (apply Z.eqb_neq; unfold j; lia).
  rewrite HL, Hjn. repeat split.
Qed.

Lemma string_length_list (s : string) :
  List.length (list_ascii_of_string s) = String.length s.
Proof. induction s as [|c s IH]; simpl; [reflexivity|]. rewrite IH. reflexivity. Qed.

Lemma substring_whole (b : string) :
  String.substring 0 (String.length b) b = b.
Proof. induction b as [|c b IH]; simpl; [reflexivity|]. rewrite IH. reflexivity. Qed.

Lemma substring_tail (a b : string) :
  String.substring (String.length a) (String.length b) (a +:+ b) = b.
Proof.
  induction a as [|c a IH]; [apply substring_whole|].
  change (String.substring (String.length a) (String.length b) (a +:+ b) = b).
  exact IH.
Qed.

Lemma all_plain_nonempty_list (s : string) :
  s <> EmptyString -> list_ascii_of_string s <> [].
Proof. destruct s; [contradiction|discriminate]. Qed.

Lemma directory_list (prefix : string) :
  prefix = EmptyString \/ (exists d, prefix = d +:+ "/") ->
  list_ascii_of_string prefix = []
  \/ exists ld, list_ascii_of_string prefix = ld ++ ["/"%char].
Proof.
  intros [->|[d ->]]; [left; reflexivity|right].
  exists (list_ascii_of_string d). apply list_ascii_app.
Qed.

(** The extension of a path whose last component is a plain stem followed
    by something of the shape of an extension is that extension. *)
Lemma extname_of_built (prefix stem ext : string) :
  prefix = EmptyString \/ (exists d, prefix = d +:+ "/") ->
  all_plain stem = true -> stem <> EmptyString -> ext_shape ext = true ->
  extname (prefix +:+ stem +:+ ext) = ext.
Proof.
  intros Hp Hstem Hne Hext.
  pose proof (directory_list prefix Hp) as Hlp.
  pose proof (all_plain_Forall stem Hstem) as Hls.
  pose proof (all_plain_nonempty_list stem Hne) as Hlsne.
  unfold extname.
  destruct ext as [|c r].
  - assert (Hchars : list_ascii_of_string (prefix +:+ stem +:+ EmptyString)
                     = list_ascii_of_string prefix ++ list_ascii_of_string stem).
    { rewrite !list_ascii_app. simpl. rewrite app_nil_r. reflexivity. }
    rewrite Hchars.
    rewrite (loop_without_extension _ _ Hlp Hls Hlsne). reflexivity.
  - simpl in Hext. apply andb_prop in Hext as [Hc Hr].
    apply Ascii.eqb_eq in Hc. subst c.
    assert (Hchars : list_ascii_of_string (prefix +:+ stem +:+ String "." r)
                     = list_ascii_of_string prefix ++ list_ascii_of_string stem
                       ++ "."%char :: list_ascii_of_string r).
    { rewrite !list_ascii_app. reflexivity. }
    rewrite Hchars.
    destruct (loop_with_extension _ _ _ Hlp Hls Hlsne (all_plain_Forall r Hr))
      as (H1 & H2 & H3).
    rewrite H1, H2, H3.
    assert (Hsd : (Z.of_nat (List.length (list_ascii_of_string prefix
                                          ++ list_ascii_of_string stem)) =? -1)
                  = false) by (apply Z.eqb_neq; lia).
    assert (He : (Z.of_nat (List.length
                    (list_ascii_of_string prefix ++ list_ascii_of_string stem
                     ++ "."%char :: list_ascii_of_string r)) =? -1) = false)
      by (apply Z.eqb_neq; lia).
    rewrite Hsd, He. simpl orb.
    rewrite !length_app. simpl List.length. rewrite !string_length_list.
    replace (Z.to_nat (Z.of_nat (String.length prefix + String.length stem)))
      with (String.length (prefix +:+ stem)).
    + replace (Z.to_nat
                 (Z.of_nat (String.length prefix
                            + (String.length stem + S (String.length r)))
                  - Z.of_nat (String.length prefix + String.length stem)))
        with (String.length (String "." r)) by (simpl; lia).
      rewrite <- NamesProps.append_assoc. apply substring_tail.
    + rewrite Nat2Z.id, <- !string_length_list, list_ascii_app, length_app.
      reflexivity.
Qed.

End PathShapeProps.

(** ** Generated names keep the original extension *)

Module GeneratedNames.
Import Js Probe Pipeline Table Path Names PathShape PathShapeProps Handler Samples.

Lemma digit_is_plain (c : ascii) : is_digit c = true -> plain c = true.
Proof.
  destruct c as [[] [] [] [] [] [] [] []]; try discriminate; reflexivity.
Qed.

Lemma all_digits_plain (s : string) : all_digits s = true -> all_plain s = true.
Proof.
  induction s as [|c s IH]; [reflexivity|]. simpl.
  intros H. apply andb_prop in H as [Hc Hs].
  rewrite (digit_is_plain c Hc), (IH Hs). reflexivity.
Qed.

Lemma all_plain_app (a b : string) :
  all_plain (a +:+ b) = all_plain a && all_plain b.
Proof.
  induction a as [|c a IH]; [reflexivity|].
  change (plain c && all_plain (a +:+ b)
          = plain c && all_plain a && all_plain b).
  rewrite IH, andb_assoc. reflexivity.
Qed.

Lemma pretty_go_length (x : N) :
  forall s, (String.length s <= String.length (pretty_N_go x s))%nat.
Proof.
  induction (N.lt_wf_0 x) as [x _ IH]. intros s.
  destruct (N.eq_dec x 0%N) as [->|Hx].
  - rewrite pretty_N_go_0. lia.
  - rewrite pretty_N_go_step by lia.
    etransitivity; [|apply IH; apply N.div_lt; lia]. simpl. lia.
Qed.

Lemma pretty_not_empty (n : N) : pretty n <> EmptyString.
Proof.
  unfold pretty, pretty_N. case_decide as Hn; [discriminate|].
  intros Heq. apply (f_equal String.length) in Heq.
  rewrite pretty_N_go_step in Heq by lia.
  pose proof (pretty_go_length (n `div` 10)%N
                (String (pretty_N_char (n `mod` 10)%N) EmptyString)) as Hl.
  simpl in *. lia.
Qed.

Lemma upload_stem_plain (now rnd : N) :
  all_plain (pretty now +:+ "-" +:+ pretty rnd) = true.
Proof.
  rewrite !all_plain_app.
  rewrite (all_digits_plain (pretty now) (NamesProps.all_digits_pretty now)).
  rewrite (all_digits_plain (pretty rnd) (NamesProps.all_digits_pretty rnd)).
  reflexivity.
Qed.

Lemma output_stem_plain (now : N) :
  all_plain ("trimmed-" +:+ pretty now) = true.
Proof.
  rewrite all_plain_app.
  rewrite (all_digits_plain (pretty now) (NamesProps.all_digits_pretty now)).
  reflexivity.
Qed.

Lemma all_plain_no_slash (s : string) : all_plain s = true -> no_slash s = true.
Proof.
  induction s as [|c s IH]; [reflexivity|]. simpl. unfold plain.
  intros H. apply andb_prop in H as [Hc Hs].
  apply andb_prop in Hc as [Hc _]. rewrite Hc, (IH Hs). reflexivity.
Qed.

Lemma ext_shape_no_slash (e : string) : ext_shape e = true -> no_slash e = true.
Proof.
  destruct e as [|c r]; [reflexivity|]. simpl.
  intros H. apply andb_prop in H as [Hc Hr].
  apply Ascii.eqb_eq in Hc. subst c. simpl. apply all_plain_no_slash. exact Hr.
Qed.

Lemma no_slash_app (a b : string) :
  no_slash (a +:+ b) = no_slash a && no_slash b.
Proof.
  induction a as [|c a IH]; [reflexivity|].
  change (negb (Ascii.eqb c "/") && no_slash (a +:+ b)
          = negb (Ascii.eqb c "/") && no_slash a && no_slash b).
  rewrite IH, andb_assoc. reflexivity.
Qed.

Lemma output_path_extension (dir : string) (now : N) (originalname : string) :
  extname (join dir (outputFilename now originalname)) = extname originalname.
Proof.
  unfold outputFilename, join.
  change (dir +:+ "/" +:+ "trimmed-" +:+ pretty now +:+ extname originalname)
    with (dir +:+ "/" +:+ ("trimmed-" +:+ pretty now)
          +:+ extname originalname).
  rewrite <- (NamesProps.append_assoc dir "/").
  apply (extname_of_built (dir +:+ "/")).
  - right. eexists; reflexivity.
  - apply output_stem_plain.
  - discriminate.
  - apply extname_shape.
Qed.

(** X20: whatever the client calls its file, the two generated names
    contain no path separator, and each keeps exactly the extension of the
    original name, also after it is joined to a directory. *)
Theorem X20_generated_names_keep_extension :
  forall (dir : string) (now rnd : N) (originalname : string),
    no_slash (uploadFilename now rnd originalname) = true
    /\ no_slash (outputFilename now originalname) = true
    /\ extname (uploadFilename now rnd originalname) = extname originalname
    /\ extname (join dir (uploadFilename now rnd originalname))
       = extname originalname
    /\ extname (outputFilename now originalname) = extname originalname
    /\ extname (join dir (outputFilename now originalname))
       = extname originalname.
Proof.
  intros dir now rnd name.
  pose proof (extname_shape name) as Hshape.
  pose proof (upload_stem_plain now rnd) as Hup.
  pose proof (output_stem_plain now) as Hout.
  assert (Hupne : pretty now +:+ "-" +:+ pretty rnd <> EmptyString).
  { intros H. apply (f_equal String.length) in H.
    pose proof (pretty_not_empty now) as Hn.
    destruct (pretty now); [contradiction|discriminate H]. }
  assert (Houtne : "trimmed-" +:+ pretty now <> EmptyString) by discriminate.
  unfold uploadFilename, outputFilename, join.
  repeat split.
  - rewrite no_slash_app, (all_plain_no_slash _ Hup),
      (ext_shape_no_slash _ Hshape). reflexivity.
  - change ("trimmed-" +:+ pretty now +:+ extname name)
      with (("trimmed-" +:+ pretty now) +:+ extname name).
    rewrite no_slash_app, (all_plain_no_slash _ Hout),
      (ext_shape_no_slash _ Hshape). reflexivity.
  - apply (extname_of_built EmptyString); auto.
  - rewrite <- (NamesProps.append_assoc dir "/").
    apply (extname_of_built (dir +:+ "/")); eauto.
  - change ("trimmed-" +:+ pretty now +:+ extname name)
      with (EmptyString +:+ ("trimmed-" +:+ pretty now) +:+ extname name).
    apply extname_of_built; auto.
  - change (dir +:+ "/" +:+ "trimmed-" +:+ pretty now +:+ extname name)
      with (dir +:+ "/" +:+ ("trimmed-" +:+ pretty now) +:+ extname name).
    rewrite <- (NamesProps.append_assoc dir "/").
    apply (extname_of_built (dir +:+ "/")); eauto.
Qed.

Example hostile_name :
  outputFilename 1700000000001 "../../etc/cron.d/job.MP3"
  = "trimmed-1700000000001.MP3".
Proof. reflexivity. Qed.

Section Run.

Variable ffprobe : string -> gmap string Z -> string + ProbeData.
Variable outputDir : string.

(** X21: the codec and bitrate of the command a request runs are looked up
    at the lower-cased extension of the name the client gave its file, not
    at anything the inspection found: the row of the table is chosen by
    the original file name, the inspection only supplies the bitrate. *)
Theorem X21_codec_follows_original_name :
  forall (f : File) (now : N) (fs : gmap string Z),
    selection (run_command ffprobe outputDir f now fs)
    = table_code (toLowerCase (extname (originalname f)))
        (targetBitrate
           (metadata_or_null (getAudioMetadata (ffprobe (path f) fs)))).
Proof.
  intros f now fs. unfold run_command.
  rewrite SelectionProps.selection_table_code.
  unfold run_outputPath. rewrite output_path_extension. reflexivity.
Qed.

(** X22: when the inspection finds an audio stream whose own [bit_rate]
    parses to a usable number [b], the command the request runs asks for
    [max(32, floor(b / 1000))] kbps on the row of the original
    extension. *)
Theorem X22_stream_bitrate_reaches_command
    (f : File) (now : N) (fs : gmap string Z)
    (data : ProbeData) (s : Stream) (b : Z)
    (Hprobe : ffprobe (path f) fs = inr data)
    (Haudio : List.find is_audio (streams data) = Some s)
    (Husable : parseable (bit_rate s) = true)
    (Hvalue : parseInt (bit_rate s) = Num b) :
  selection (run_command ffprobe outputDir f now fs)
  = table_code (toLowerCase (extname (originalname f)))
               (Some (Z.max 32 (b / 1000))).
Proof.
  unfold run_command. rewrite SelectionProps.selection_table_code.
  unfold run_outputPath. rewrite output_path_extension. f_equal.
  rewrite Hprobe. unfold getAudioMetadata. rewrite Haudio. simpl.
  pose proof (ProbeProps.resolve_bitrate_priority s (format data)) as Hp.
  unfold resolved_by_priority in Hp. rewrite Husable, Hvalue in Hp.
  unfold parseable, known in Husable. rewrite Hvalue in Husable.
  apply andb_prop in Husable as [_ Hk]. simpl in Hk.
  apply Bool.negb_true_iff, Z.eqb_neq in Hk.
  rewrite Hp. apply Z.eqb_neq in Hk. rewrite Hk. reflexivity.
Qed.

End Run.

Lemma X22_witness :
  selection (run_command ffprobe_192k "/srv/output" sample_file
               1700000000001 sample_fs)
  = mp3 192.
Proof.
  apply (X22_stream_bitrate_reaches_command ffprobe_192k "/srv/output"
           sample_file 1700000000001 sample_fs
           {| streams := [sample_stream (Str "192000")];
              format := Some sample_format |}
           (sample_stream (Str "192000")) 192000);
    reflexivity.
Defined.

End GeneratedNames.

(** ** The download endpoint *)

Module DownloadProps.
Import Names Download Samples.

(** X23: a download of an output name answers 404 and sets no timer when
    the file is missing; a failed transfer sets no timer either, so the
    file stays for another attempt; a completed transfer sets one guarded
    timer, which never throws, and after it has fired the same name
    answers 404. *)
Theorem X23_download_is_single_use :
  forall (outputDir : string) (now : N) (originalname : string)
         (transfer : string -> option string) (fs : gmap string Z),
    let filePath := join outputDir (outputFilename now originalname) in
    match download outputDir (outputFilename now originalname) transfer fs with
    | (NotFound404, ts) => fs !! filePath = None /\ ts = []
    | (Failed500, ts) => is_Some (fs !! filePath) /\ ts = []
    | (FileSent p, ts) =>
        p = filePath /\ is_Some (fs !! filePath)
        /\ ts = [UnlinkIfPresent filePath 1000]
        /\ fire (UnlinkIfPresent filePath 1000) fs = inr (delete filePath fs)
        /\ fire (UnlinkIfPresent filePath 1000) (delete filePath fs)
           = inr (delete filePath fs)
        /\ download outputDir (outputFilename now originalname) transfer
             (delete filePath fs)
           = (NotFound404, [])
    end.
Proof.
  intros outputDir now name transfer fs. cbv zeta. unfold download.
  set (filePath := join outputDir (outputFilename now name)).
  destruct (fs !! filePath) as [size|] eqn:Hfile.
  - rewrite bool_decide_eq_true_2 by (eexists; reflexivity).
    destruct (transfer filePath) as [err|].
    + split; [eexists; reflexivity|reflexivity].
    + unfold fire. rewrite Hfile, lookup_delete_eq.
      rewrite bool_decide_eq_true_2 by (eexists; reflexivity).
      rewrite bool_decide_eq_false_2 by (intros [? H]; discriminate H).
      repeat split; try reflexivity. eexists; reflexivity.
  - rewrite bool_decide_eq_false_2 by (intros [? H]; discriminate H).
    split; reflexivity.
Qed.

End DownloadProps.
